(** * NBA Markov simulation: the client side of the simulation engine

    A shallow embedding of the TypeScript front end of the repository:

    - [SimulationControls]: the metric adjustment controls ([adjustMetric])
      and the computation of the "additional" counts sent to the matrix
      adjuster ([getAdditional], [calculateVariables]);
    - [Api]: the streaming consumer [simulateSeasonsStream] (in
      [Api.Throwing], the same for callbacks that may throw) and
      [healthCheck];
    - [SimulationChart]: the transform of a list of seasons into chart
      data points;
    - [Types] and [App]: the declared statistics record and the fallback
      statistics object.

    JavaScript numbers are IEEE 754 binary64 values and are modelled by
    Rocq's primitive floats, so NaN, the infinities and the signed zeros
    behave as they do in the source. *)

From Stdlib Require Import ZArith Bool List String Ascii Floats Lia.
From stdpp Require Import gmap strings list pretty.

Set Warnings "-inexact-float".

(** ** JavaScript values and the fragment of the language the code uses *)

Module JS.

(** A JavaScript value, as [JSON.parse] can produce it, plus [undefined]
    (the result of reading a property that is not there). An object is
    the list of its own properties. *)
#[warnings="-register-all"]
Inductive JSValue : Type :=
| JSUndefined
| JSNull
| JSBool (b : bool)
| JSNumber (x : float)
| JSString (s : string)
| JSArray (elems : list JSValue)
| JSObject (props : list (string * JSValue)).

(** A thrown or rejected value: an error object created by the code or
    the runtime, or any other value a promise was rejected with. *)
Inductive Thrown : Type :=
| JSError (name message : string)
| Rejection (reason : JSValue).

(** [ToBoolean] on numbers: 0, -0 and NaN are falsy. *)
Definition truthy_number (x : float) : bool :=
  negb (is_zero x || is_nan x).

(** [ToBoolean]. *)
Definition truthy (v : JSValue) : bool :=
  match v with
  | JSUndefined | JSNull => false
  | JSBool b => b
  | JSNumber x => truthy_number x
  | JSString s => negb (String.eqb s "")
  | JSArray _ | JSObject _ => true
  end.

(** Own property lookup in an object literal. *)
Fixpoint lookup_prop (key : string) (props : list (string * JSValue))
  : JSValue :=
  match props with
  | [] => JSUndefined
  | (k, v) :: rest => if String.eqb k key then v else lookup_prop key rest
  end.

(** [v.key] for the property names the code reads ([type], [statistics],
    [message], [season], [games], [status], [running_statistics]): none
    of them is defined on a prototype, so primitives and arrays yield
    [undefined]; reading a property of [null] or [undefined] throws a
    [TypeError]. *)
Definition get_prop (v : JSValue) (key : string) : Thrown + JSValue :=
  match v with
  | JSUndefined | JSNull =>
      inl (JSError "TypeError"
             ("Cannot read properties of null or undefined (reading '"
              +:+ key +:+ "')"))
  | JSObject props => inr (lookup_prop key props)
  | _ => inr JSUndefined
  end.

(** [v === s] for a string literal [s]. *)
Definition strict_eq_string (v : JSValue) (s : string) : bool :=
  match v with
  | JSString s' => String.eqb s' s
  | _ => false
  end.

(** [Math.min(a, b)]: NaN if either argument is NaN; -0 is smaller
    than +0. *)
Definition Math_min (a b : float) : float :=
  if is_nan a || is_nan b then nan
  else if (a <? b)%float then a
  else if (b <? a)%float then b
  else if get_sign a then a else b.

(** [Math.max(a, b)]: NaN if either argument is NaN; +0 is larger
    than -0. *)
Definition Math_max (a b : float) : float :=
  if is_nan a || is_nan b then nan
  else if (a <? b)%float then b
  else if (b <? a)%float then a
  else if get_sign a then b else a.

(** [Math.abs]. *)
Definition Math_abs (x : float) : float := abs x.

(** [s.split('\n')]. *)
Fixpoint split_lines (s : string) : list string :=
  match s with
  | EmptyString => [EmptyString]
  | String c rest =>
      if Ascii.eqb c "010"%char then EmptyString :: split_lines rest
      else match split_lines rest with
           | line :: lines => String c line :: lines
           | [] => [String c EmptyString]
           end
  end.

(** [s.startsWith(p)]. *)
Definition startsWith (s p : string) : bool := String.prefix p s.

(** [s.slice(n)] for [n >= 0]. *)
Fixpoint slice (s : string) (n : nat) : string :=
  match n, s with
  | O, _ => s
  | S n', String _ rest => slice rest n'
  | S _, EmptyString => EmptyString
  end.

(** Number literals written from natural numbers ([i + 1] for an array
    index [i]). *)
Definition Number_of_nat (n : nat) : float :=
  PrimFloat.of_uint63 (Uint63.of_Z (Z.of_nat n)).

(** The specification-level counterparts of [is_nan] and [is_infinity],
    on the binary64 values as the IEEE 754 specification describes
    them. *)
Definition SFis_nan (x : spec_float) : bool :=
  match x with S754_nan => true | _ => false end.

Definition SFis_inf (x : spec_float) : bool :=
  match x with S754_infinity _ => true | _ => false end.

End JS.

Import JS.

(** ** Effects: callbacks, console output and exceptions *)

Module Effects.

(** What the code does to the outside: the four callbacks of
    [simulateSeasonsStream] and the two console calls. Callbacks are the
    caller's; they are recorded in call order. In a computation of [Eff]
    they return normally; a computation of [Run], below, has callbacks
    that may throw. *)
Inductive Call : Type :=
| OnSeasonUpdate (seasonData : JSValue)
| OnStatsUpdate (stats : JSValue)
| OnComplete
| OnError (error : Thrown)
| ConsoleLog (label : string) (arg : JSValue)
| ConsoleError (label : string) (arg : Thrown).

Definition is_callback (c : Call) : bool :=
  match c with
  | ConsoleLog _ _ | ConsoleError _ _ => false
  | _ => true
  end.

Definition callbacks (t : list Call) : list Call := filter is_callback t.

(** A computation: the calls made so far, and a value or a thrown
    exception. *)
Definition Eff (A : Type) : Type := list Call * (Thrown + A).

Definition ret {A} (a : A) : Eff A := ([], inr a).

Definition bind {A B} (k : A -> Eff B) (m : Eff A) : Eff B :=
  match m with
  | (t, inl e) => (t, inl e)
  | (t, inr a) => let '(t', r) := k a in (t ++ t', r)
  end.

Definition throw {A} (e : Thrown) : Eff A := ([], inl e).

Definition call (c : Call) : Eff unit := ([c], inr tt).

(** Lift a pure completion (value or exception). *)
Definition lift {A} (r : Thrown + A) : Eff A := ([], r).

(** [try { body } catch (e) { handler(e) }]. *)
Definition try_catch {A} (body : Eff A) (handler : Thrown -> Eff A) : Eff A :=
  match body with
  | (t, inr a) => (t, inr a)
  | (t, inl e) => let '(t', r) := handler e in (t ++ t', r)
  end.

Definition trace {A} (m : Eff A) : list Call := fst m.
Definition outcome {A} (m : Eff A) : Thrown + A := snd m.

#[global] Instance Eff_ret : MRet Eff := @ret.
#[global] Instance Eff_bind : MBind Eff := @bind.

(** A computation whose callbacks may throw: what it does depends on the
    calls made before it starts, which decide what a callback does. *)
Definition Run (A : Type) : Type := list Call -> Eff A.

Definition run_ret {A} (a : A) : Run A := fun _ => ([], inr a).

Definition run_bind {A B} (k : A -> Run B) (m : Run A) : Run B :=
  fun past =>
    match m past with
    | (t, inl e) => (t, inl e)
    | (t, inr a) => let '(t', r) := k a (past ++ t) in (t ++ t', r)
    end.

Definition run_throw {A} (e : Thrown) : Run A := fun _ => ([], inl e).

Definition run_lift {A} (r : Thrown + A) : Run A := fun _ => ([], r).

(** [try { body } catch (e) { handler(e) }]. *)
Definition run_try_catch {A} (body : Run A) (handler : Thrown -> Run A)
    : Run A :=
  fun past =>
    match body past with
    | (t, inr a) => (t, inr a)
    | (t, inl e) => let '(t', r) := handler e (past ++ t) in (t ++ t', r)
    end.

(** A call: recorded, and then it returns or throws. [throws past c] is
    what the callback call [c] throws after the calls [past], if it
    throws; the console calls return normally. *)
Definition invoke (throws : list Call -> Call -> option Thrown) (c : Call)
    : Run unit :=
  fun past =>
    ([c],
     match (if is_callback c then throws past c else None) with
     | Some e => inl e
     | None => inr tt
     end).

#[global] Instance Run_ret : MRet Run := @run_ret.
#[global] Instance Run_bind : MBind Run := @run_bind.

End Effects.

Import Effects.

(** ** types/index.ts *)

Module Types.

Record GameData : Type := {
  game : float;
  expected_wins : float;
  team_score : float;
  opp_score : float;
  is_win : bool
}.

Record SeasonData : Type := {
  season : float;
  games : list GameData;
  final_expected_wins : float;
  total_wins : float;
  win_percentage : float
}.

(** The type of a declared interface member. *)
Inductive TsType : Type :=
| TsNumber
| TsBoolean
| TsString
| TsArray (elem : TsType)
| TsRef (name : string).

(** An interface declaration: its members, in declaration order. *)
Definition Interface : Type := list (string * TsType).

(** [export interface SimulationStatistics]. *)
Definition SimulationStatistics : Interface :=
  [ ("average_expected_wins"%string, TsNumber);
    ("standard_deviation"%string, TsNumber);
    ("confidence_interval_95"%string, TsNumber);
    ("min_wins"%string, TsNumber);
    ("max_wins"%string, TsNumber) ].

(** [export interface SimulationResult]. *)
Definition SimulationResult : Interface :=
  [ ("seasons"%string, TsArray (TsRef "SeasonData"));
    ("statistics"%string, TsRef "SimulationStatistics") ].

(** Whether an interface declares a member of the given name. *)
Definition declares (i : Interface) (field : string) : bool :=
  existsb (fun m => String.eqb (fst m) field) i.

End Types.

Import Types.

(** ** components/SimulationControls.tsx *)

Module SimulationControls.

(** The per-team statistical profile returned by the season metrics
    endpoint, restricted to the members the component reads. *)
Record TeamMetrics : Type := {
  fg2_pct : float;  fg2a : float;  fg2m : float;
  FG3_PCT : float;  FG3A : float;  FG3M : float;
  FT_PCT : float;   FTA : float;   FTM : float;
  TM_TOV_PCT : float;  POSS : float;  TOV : float;
  dreb_pct : float;  DREB : float;
  OREB_PCT : float;  OREB : float;
  opp_fg2_pct : float;  opp_fg2a : float;  opp_fg2m : float;
  OPP_FG3_PCT : float;  OPP_FG3A : float;  OPP_FG3M : float;
  OPP_FT_PCT : float;   OPP_FTA : float;   OPP_FTM : float;
  OPP_TOV_PCT : float;  OPP_TOV : float;
  opp_dreb_pct : float;  OPP_DREB : float;
  OPP_OREB_PCT : float;  OPP_OREB : float
}.

(** The [adjustedMetrics] state: an object from metric keys to numbers. *)
Abbreviation AdjustedMetrics := (gmap string float).

(** [o.key] read in an arithmetic context: a missing member is
    [undefined], which [ToNumber] turns into NaN. *)
Definition member (o : AdjustedMetrics) (key : string) : float :=
  default nan (o !! key).

(** [x || 0] on a number. *)
Definition number_or_zero (x : float) : float :=
  if truthy_number x then x else 0%float.

(** The names every object inherits from [Object.prototype]. *)
Definition Object_prototype_names : list string :=
  [ "constructor"; "hasOwnProperty"; "isPrototypeOf"; "propertyIsEnumerable";
    "toLocaleString"; "toString"; "valueOf"; "__proto__";
    "__defineGetter__"; "__defineSetter__"; "__lookupGetter__";
    "__lookupSetter__" ]%string.

Definition inherited (key : string) : bool :=
  existsb (String.eqb key) Object_prototype_names.

(** What [o[key]] finds on an object whose own members are numbers: an
    own member, else a member of [Object.prototype] (a function, or an
    object for [__proto__]), else nothing ([undefined]). *)
Inductive Found : Type :=
| OwnNumber (x : float)
| Inherited
| NotFound.

Definition find_member (o : AdjustedMetrics) (key : string) : Found :=
  match o !! key with
  | Some x => OwnNumber x
  | None => if inherited key then Inherited else NotFound
  end.

(** [Math.max(0, Math.min(1, (v || 0) + delta))] for the value [v] found.
    An own 0, -0 or NaN, and [undefined], give 0 before the sum. A
    function or an object is truthy and its sum with a number is a
    string that is not a numeral, which [Math.min] turns into NaN. *)
Definition clamped_sum (v : Found) (delta : float) : float :=
  match v with
  | OwnNumber x => Math_max 0 (Math_min 1 (number_or_zero x + delta))
  | NotFound => Math_max 0 (Math_min 1 (0 + delta))
  | Inherited => nan
  end.

(** [adjustMetric], as the state update it passes to
    [setAdjustedMetrics]. *)
Definition adjustMetric (metric : string) (delta : float)
    (prev : AdjustedMetrics) : AdjustedMetrics :=
  <[metric := clamped_sum (find_member prev metric) delta]> prev.

(** The previous value of a metric, 0 if absent: [prev[metric] || 0] for
    a key that is no name of [Object.prototype]. *)
Definition previous_or_zero (o : AdjustedMetrics) (key : string) : float :=
  match o !! key with
  | Some x => number_or_zero x
  | None => 0%float
  end.

(** [resetMetric]. *)
Definition resetMetric (metric : string) (originalValue : float)
    (prev : AdjustedMetrics) : AdjustedMetrics :=
  <[metric := originalValue]> prev.

(** The epsilon below which a metric counts as unchanged. *)
Definition EPSILON : float := 0.0001%float.

(** [getAdditional]: 0 when the metric is at its default, the formula
    otherwise. *)
Definition getAdditional (adjustedValue originalValue : float)
    (formula : unit -> float) : float :=
  if (Math_abs (adjustedValue - originalValue) <? EPSILON)%float
  then 0%float
  else formula tt.

(** The object [calculateVariables] returns. *)
Record CalculatedVariables : Type := {
  additional_shots_made_2 : float;
  additional_shots_made_3 : float;
  additional_shots_made_ft : float;
  additional_turnovers : float;
  additional_dreb : float;
  additional_oreb : float;
  opp_additional_shots_made_2 : float;
  opp_additional_shots_made_3 : float;
  opp_additional_shots_made_ft : float;
  opp_additional_turnovers : float;
  opp_additional_dreb : float;
  opp_additional_oreb : float
}.

(** [calculateVariables]. [None] stands for the empty object returned
    when no team metrics are loaded ([adjustedMetrics] is always an
    object, hence truthy). *)
Definition calculateVariables (teamMetrics : option TeamMetrics)
    (adjustedMetrics : AdjustedMetrics) : option CalculatedVariables :=
  match teamMetrics with
  | None => None
  | Some original =>
    let adjusted := adjustedMetrics in
    Some {|
      additional_shots_made_2 :=
        getAdditional (member adjusted "fg2_pct") (fg2_pct original)
          (fun _ => member adjusted "fg2_pct" * fg2a original - fg2m original);
      additional_shots_made_3 :=
        getAdditional (member adjusted "fg3_pct") (FG3_PCT original)
          (fun _ => member adjusted "fg3_pct" * FG3A original - FG3M original);
      additional_shots_made_ft :=
        getAdditional (member adjusted "ft_pct") (FT_PCT original)
          (fun _ => member adjusted "ft_pct" * FTA original - FTM original);
      additional_turnovers :=
        getAdditional (member adjusted "tov_pct") (TM_TOV_PCT original)
          (fun _ => member adjusted "tov_pct" * POSS original - TOV original);
      additional_dreb :=
        getAdditional (member adjusted "dreb_pct") (dreb_pct original)
          (fun _ => (DREB original / dreb_pct original)
                    * member adjusted "dreb_pct" - DREB original);
      additional_oreb :=
        getAdditional (member adjusted "oreb_pct") (OREB_PCT original)
          (fun _ => (OREB original / OREB_PCT original)
                    * member adjusted "oreb_pct" - OREB original);
      opp_additional_shots_made_2 :=
        getAdditional (member adjusted "opp_fg2_pct") (opp_fg2_pct original)
          (fun _ => member adjusted "opp_fg2_pct" * opp_fg2a original
                    - opp_fg2m original);
      opp_additional_shots_made_3 :=
        getAdditional (member adjusted "opp_fg3_pct") (OPP_FG3_PCT original)
          (fun _ => member adjusted "opp_fg3_pct" * OPP_FG3A original
                    - OPP_FG3M original);
      opp_additional_shots_made_ft :=
        getAdditional (member adjusted "opp_ft_pct") (OPP_FT_PCT original)
          (fun _ => member adjusted "opp_ft_pct" * OPP_FTA original
                    - OPP_FTM original);
      opp_additional_turnovers :=
        getAdditional (member adjusted "opp_tov_pct") (OPP_TOV_PCT original)
          (fun _ => member adjusted "opp_tov_pct" * POSS original
                    - OPP_TOV original);
      opp_additional_dreb :=
        getAdditional (member adjusted "opp_dreb_pct") (opp_dreb_pct original)
          (fun _ => (OPP_DREB original / opp_dreb_pct original)
                    * member adjusted "opp_dreb_pct" - OPP_DREB original);
      opp_additional_oreb :=
        getAdditional (member adjusted "opp_oreb_pct") (OPP_OREB_PCT original)
          (fun _ => (OPP_OREB original / OPP_OREB_PCT original)
                    * member adjusted "opp_oreb_pct" - OPP_OREB original)
    |}%float
  end.

(** A run of the adjustment buttons: [adjustMetric] applied call after
    call, each to the state the previous one left. *)
Definition adjustAll (clicks : list (string * float))
    (start : AdjustedMetrics) : AdjustedMetrics :=
  fold_left (fun prev click => adjustMetric (fst click) (snd click) prev)
    clicks start.

(** Membership in the closed interval [0, 1], by the comparisons of the
    language (false for NaN). *)
Definition in_unit_interval (x : float) : bool :=
  ((0 <=? x) && (x <=? 1))%float.

(** The state set when a team is selected and by [resetAllMetrics]: every
    adjusted metric at the team's baseline. *)
Definition resetAllMetrics (teamMetrics : TeamMetrics) : AdjustedMetrics :=
  list_to_map
    [ ("fg2_pct"%string, fg2_pct teamMetrics);
      ("fg3_pct"%string, FG3_PCT teamMetrics);
      ("ft_pct"%string, FT_PCT teamMetrics);
      ("oreb_pct"%string, OREB_PCT teamMetrics);
      ("dreb_pct"%string, dreb_pct teamMetrics);
      ("tov_pct"%string, TM_TOV_PCT teamMetrics);
      ("opp_fg2_pct"%string, opp_fg2_pct teamMetrics);
      ("opp_fg3_pct"%string, OPP_FG3_PCT teamMetrics);
      ("opp_ft_pct"%string, OPP_FT_PCT teamMetrics);
      ("opp_oreb_pct"%string, OPP_OREB_PCT teamMetrics);
      ("opp_dreb_pct"%string, opp_dreb_pct teamMetrics);
      ("opp_tov_pct"%string, OPP_TOV_PCT teamMetrics) ].


(** *** The twelve adjustable metrics, for statements about all of them *)

Inductive Metric : Type :=
| Fg2 | Fg3 | Ft | Tov | Dreb | Oreb
| OppFg2 | OppFg3 | OppFt | OppTov | OppDreb | OppOreb.

(** The member of [adjustedMetrics] holding the metric. *)
Definition metric_key (m : Metric) : string :=
  match m with
  | Fg2 => "fg2_pct" | Fg3 => "fg3_pct" | Ft => "ft_pct"
  | Tov => "tov_pct" | Dreb => "dreb_pct" | Oreb => "oreb_pct"
  | OppFg2 => "opp_fg2_pct" | OppFg3 => "opp_fg3_pct" | OppFt => "opp_ft_pct"
  | OppTov => "opp_tov_pct" | OppDreb => "opp_dreb_pct"
  | OppOreb => "opp_oreb_pct"
  end.

(** The baseline value of the metric in the team's profile. *)
Definition baseline (m : Metric) (original : TeamMetrics) : float :=
  match m with
  | Fg2 => fg2_pct original | Fg3 => FG3_PCT original | Ft => FT_PCT original
  | Tov => TM_TOV_PCT original | Dreb => dreb_pct original
  | Oreb => OREB_PCT original
  | OppFg2 => opp_fg2_pct original | OppFg3 => OPP_FG3_PCT original
  | OppFt => OPP_FT_PCT original | OppTov => OPP_TOV_PCT original
  | OppDreb => opp_dreb_pct original | OppOreb => OPP_OREB_PCT original
  end.

(** The variable of [calculateVariables] computed for the metric. *)
Definition additional (m : Metric) (v : CalculatedVariables) : float :=
  match m with
  | Fg2 => additional_shots_made_2 v | Fg3 => additional_shots_made_3 v
  | Ft => additional_shots_made_ft v | Tov => additional_turnovers v
  | Dreb => additional_dreb v | Oreb => additional_oreb v
  | OppFg2 => opp_additional_shots_made_2 v
  | OppFg3 => opp_additional_shots_made_3 v
  | OppFt => opp_additional_shots_made_ft v
  | OppTov => opp_additional_turnovers v
  | OppDreb => opp_additional_dreb v | OppOreb => opp_additional_oreb v
  end.

(** The redistribution formula of the metric, as a function of the new
    percentage: new makes (or turnovers) out of the same attempts (or
    possessions) minus the old ones; for rebounds, the share of the same
    rebound chances minus the old count. *)
Definition redistribution (m : Metric) (original : TeamMetrics)
    (new_pct : float) : float :=
  match m with
  | Fg2 => new_pct * fg2a original - fg2m original
  | Fg3 => new_pct * FG3A original - FG3M original
  | Ft => new_pct * FTA original - FTM original
  | Tov => new_pct * POSS original - TOV original
  | Dreb => (DREB original / dreb_pct original) * new_pct - DREB original
  | Oreb => (OREB original / OREB_PCT original) * new_pct - OREB original
  | OppFg2 => new_pct * opp_fg2a original - opp_fg2m original
  | OppFg3 => new_pct * OPP_FG3A original - OPP_FG3M original
  | OppFt => new_pct * OPP_FTA original - OPP_FTM original
  | OppTov => new_pct * POSS original - OPP_TOV original
  | OppDreb =>
      (OPP_DREB original / opp_dreb_pct original) * new_pct - OPP_DREB original
  | OppOreb =>
      (OPP_OREB original / OPP_OREB_PCT original) * new_pct - OPP_OREB original
  end%float.

(** For a rebound metric, the rebound count REB and the rebound
    percentage REB_PCT of the profile. *)
Definition rebound_stats (m : Metric) (original : TeamMetrics)
    : option (float * float) :=
  match m with
  | Dreb => Some (DREB original, dreb_pct original)
  | Oreb => Some (OREB original, OREB_PCT original)
  | OppDreb => Some (OPP_DREB original, opp_dreb_pct original)
  | OppOreb => Some (OPP_OREB original, OPP_OREB_PCT original)
  | _ => None
  end.


(** The [originalValue] prop of the [MetricControl] of a metric:
    [teamMetrics?.FIELD || 0], the value its Reset button restores. *)
Definition MetricControl_originalValue (m : Metric)
    (teamMetrics : option TeamMetrics) : float :=
  match teamMetrics with
  | Some original => number_or_zero (baseline m original)
  | None => 0%float
  end.

(** A team profile used in the examples. *)
Definition example_team : TeamMetrics := {|
  fg2_pct := 0.55;  fg2a := 4000;  fg2m := 2200;
  FG3_PCT := 0.36;  FG3A := 3000;  FG3M := 1080;
  FT_PCT := 0.78;   FTA := 1800;   FTM := 1404;
  TM_TOV_PCT := 0.13;  POSS := 8200;  TOV := 1066;
  dreb_pct := 0.72;  DREB := 2700;
  OREB_PCT := 0.28;  OREB := 900;
  opp_fg2_pct := 0.53;  opp_fg2a := 4100;  opp_fg2m := 2173;
  OPP_FG3_PCT := 0.35;  OPP_FG3A := 2900;  OPP_FG3M := 1015;
  OPP_FT_PCT := 0.77;   OPP_FTA := 1700;   OPP_FTM := 1309;
  OPP_TOV_PCT := 0.14;  OPP_TOV := 1148;
  opp_dreb_pct := 0.71;  OPP_DREB := 2650;
  OPP_OREB_PCT := 0.27;  OPP_OREB := 880
|}%float.

End SimulationControls.

Import SimulationControls.

(** ** api/api.ts *)

Module Api.

(** How a stream ends: [reader.read()] resolves with [done], or rejects
    (the connection dropped). *)
Inductive StreamEnd : Type :=
| EndOfStream
| ReadFailure (reason : Thrown).

(** The body reader, as the sequence of results of [reader.read()]: the
    chunks, already decoded to text, and the way the stream ends. *)
Record Reader : Type := {
  chunks : list string;
  ending : StreamEnd
}.

(** The members of the fetch [Response] the code reads. *)
Record Response : Type := {
  ok : bool;
  status : nat;
  body : option Reader
}.

(** The members of the axios response the code reads. *)
Record AxiosResponse : Type := {
  data : JSValue
}.

Section Stream.

(** [JSON.parse], the runtime's parser: a value, or a thrown
    [SyntaxError]. *)
Variable JSON_parse : string -> Thrown + JSValue.

(** The body of the [try] block run on each [data: ] line, after parsing:
    the dispatch on the event. *)
Definition dispatch (data : JSValue) : Eff unit :=
  type ← lift (get_prop data "type");
  if strict_eq_string type "final_statistics" then
    statistics ← lift (get_prop data "statistics");
    call (OnStatsUpdate statistics);;
    call OnComplete
  else
    type ← lift (get_prop data "type");
    if strict_eq_string type "cancelled" then
      call OnComplete;;
      message ← lift (get_prop data "message");
      call (ConsoleLog "Simulation cancelled:" message)
    else
      season ← lift (get_prop data "season");
      both ← (if truthy season then lift (get_prop data "games")
              else mret season);
      if truthy both then call (OnSeasonUpdate data) else mret tt.

(** The body of [for (const line of lines)]. *)
Definition process_line (line : string) : Eff unit :=
  if startsWith line "data: " then
    try_catch
      (data ← lift (JSON_parse (slice line 6));
       dispatch data)
      (fun e => call (ConsoleError "Error parsing stream data:" e))
  else mret tt.

(** [for (const line of lines) { ... }]. *)
Fixpoint for_each_line (lines : list string) : Eff unit :=
  match lines with
  | [] => mret tt
  | line :: rest => process_line line;; for_each_line rest
  end.

(** One turn of the [while (true)] loop on a chunk that was read. *)
Definition process_chunk (chunk : string) : Eff unit :=
  for_each_line (split_lines chunk).

(** [while (true) { read; if (done) break; ... }]. *)
Fixpoint read_loop (values : list string) (last : StreamEnd) : Eff unit :=
  match values with
  | [] =>
      match last with
      | EndOfStream => mret tt
      | ReadFailure reason => throw reason
      end
  | value :: rest => process_chunk value;; read_loop rest last
  end.

(** [simulateSeasonsStream], given what [fetch] settles with. *)
Definition simulateSeasonsStream (fetched : Thrown + Response) : Eff unit :=
  try_catch
    (response ← lift fetched;
     (if negb (ok response)
      then throw (JSError "Error"
                    ("HTTP error! status: " +:+ pretty (status response)))
      else mret tt);;
     reader ← match body response with
              | Some reader => mret reader
              | None => throw (JSError "Error" "No response body")
              end;
     read_loop (chunks reader) (ending reader))
    (fun error => call (OnError error)).

End Stream.

(** *** The consumer when callbacks may throw

    [simulateSeasonsStream] once more, statement by statement, with
    callbacks that may throw. With callbacks that return normally it is
    the consumer above. *)
Module Throwing.

Section Stream.

Variable JSON_parse : string -> Thrown + JSValue.

(** What a callback call throws, if it throws, given the calls made
    before it. *)
Variable throws : list Call -> Call -> option Thrown.

Definition dispatch (data : JSValue) : Run unit :=
  type ← run_lift (get_prop data "type");
  if strict_eq_string type "final_statistics" then
    statistics ← run_lift (get_prop data "statistics");
    invoke throws (OnStatsUpdate statistics);;
    invoke throws OnComplete
  else
    type ← run_lift (get_prop data "type");
    if strict_eq_string type "cancelled" then
      invoke throws OnComplete;;
      message ← run_lift (get_prop data "message");
      invoke throws (ConsoleLog "Simulation cancelled:" message)
    else
      season ← run_lift (get_prop data "season");
      both ← (if truthy season then run_lift (get_prop data "games")
              else mret season);
      if truthy both then invoke throws (OnSeasonUpdate data) else mret tt.

Definition process_line (line : string) : Run unit :=
  if startsWith line "data: " then
    run_try_catch
      (data ← run_lift (JSON_parse (slice line 6));
       dispatch data)
      (fun e => invoke throws (ConsoleError "Error parsing stream data:" e))
  else mret tt.

Fixpoint for_each_line (lines : list string) : Run unit :=
  match lines with
  | [] => mret tt
  | line :: rest => process_line line;; for_each_line rest
  end.

Definition process_chunk (chunk : string) : Run unit :=
  for_each_line (split_lines chunk).

Fixpoint read_loop (values : list string) (last : StreamEnd) : Run unit :=
  match values with
  | [] =>
      match last with
      | EndOfStream => mret tt
      | ReadFailure reason => run_throw reason
      end
  | value :: rest => process_chunk value;; read_loop rest last
  end.

Definition simulateSeasonsStream (fetched : Thrown + Response) : Run unit :=
  run_try_catch
    (response ← run_lift fetched;
     (if negb (ok response)
      then run_throw (JSError "Error"
                        ("HTTP error! status: " +:+ pretty (status response)))
      else mret tt);;
     reader ← match body response with
              | Some reader => mret reader
              | None => run_throw (JSError "Error" "No response body")
              end;
     read_loop (chunks reader) (ending reader))
    (fun error => invoke throws (OnError error)).

End Stream.

(** Callbacks that return normally. *)
Definition never : list Call -> Call -> option Thrown := fun _ _ => None.

(** An [onError] callback that throws a [TypeError], as the one of the
    application does on a rejection with [null]. *)
Definition onError_throws : list Call -> Call -> option Thrown :=
  fun _ c =>
    match c with
    | OnError _ => Some (JSError "TypeError" "Cannot read properties of null")
    | _ => None
    end.

(** An [onStatsUpdate] callback that throws. *)
Definition onStatsUpdate_throws : list Call -> Call -> option Thrown :=
  fun _ c =>
    match c with
    | OnStatsUpdate _ => Some (JSError "Error" "render failed")
    | _ => None
    end.

End Throwing.

(** [healthCheck], given what [api.get('/health')] settles with. *)
Definition healthCheck (got : Thrown + AxiosResponse) : Eff bool :=
  try_catch
    (response ← lift got;
     status ← lift (get_prop (data response) "status");
     mret (strict_eq_string status "healthy"))
    (fun _ => mret false).

(** *** Vocabulary for statements about a stream *)

(** All the lines the consumer sees: each chunk split on its own. *)
Definition stream_lines (values : list string) : list string :=
  flat_map split_lines values.

(** The event a line carries: the value parsed from a [data: ] line. *)
Definition event_of (JSON_parse : string -> Thrown + JSValue)
    (line : string) : option JSValue :=
  if startsWith line "data: " then
    match JSON_parse (slice line 6) with
    | inr data => Some data
    | inl _ => None
    end
  else None.

(** The events of a sequence of lines, in order. *)
Definition events (JSON_parse : string -> Thrown + JSValue)
    (lines : list string) : list JSValue :=
  omap (event_of JSON_parse) lines.

(** The event has the given [type]. *)
Definition has_type (data : JSValue) (type : string) : Prop :=
  exists props,
    data = JSObject props /\ lookup_prop "type" props = JSString type.

(** A season record: an object that is neither of the two terminal
    events and whose [season] and [games] members are both truthy. *)
Definition is_season_record (data : JSValue) : bool :=
  match data with
  | JSObject props =>
      negb (strict_eq_string (lookup_prop "type" props) "final_statistics")
      && negb (strict_eq_string (lookup_prop "type" props) "cancelled")
      && truthy (lookup_prop "season" props)
      && truthy (lookup_prop "games" props)
  | _ => false
  end.

(** A season record of the shape of [SeasonData] (types/index.ts) with
    a season number other than 0: an object that is no terminal event,
    whose [season] is a number other than 0 and NaN and whose [games] is
    an array. *)
Definition is_numbered_SeasonData (data : JSValue) : bool :=
  match data with
  | JSObject props =>
      negb (strict_eq_string (lookup_prop "type" props) "final_statistics")
      && negb (strict_eq_string (lookup_prop "type" props) "cancelled")
      && match lookup_prop "season" props, lookup_prop "games" props with
         | JSNumber n, JSArray _ => truthy_number n
         | _, _ => false
         end
  | _ => false
  end.

(** The event carries the given member. *)
Definition carries (data : JSValue) (key : string) : Prop :=
  exists props,
    data = JSObject props /\ In key (map fst props).

(** The calls made while the lines are processed, one line after the
    other. *)
Definition calls_of_lines (JSON_parse : string -> Thrown + JSValue)
    (lines : list string) : list Call :=
  flat_map (fun line => trace (process_line JSON_parse line)) lines.

(** The call made when the stream ends. *)
Definition call_of_ending (last : StreamEnd) : list Call :=
  match last with
  | EndOfStream => []
  | ReadFailure reason => [OnError reason]
  end.

(** The arguments of the [onSeasonUpdate] calls in a trace. *)
Definition season_updates (t : list Call) : list JSValue :=
  omap (fun c => match c with OnSeasonUpdate d => Some d | _ => None end) t.

Definition is_OnError (c : Call) : bool :=
  match c with OnError _ => true | _ => false end.

Definition is_OnStatsUpdate (c : Call) : bool :=
  match c with OnStatsUpdate _ => true | _ => false end.

(** The text has no line break. *)
Fixpoint no_newline (s : string) : bool :=
  match s with
  | EmptyString => true
  | String c rest => negb (Ascii.eqb c "010"%char) && no_newline rest
  end.

(** A terminal event: an object whose [type] is [final_statistics] or
    [cancelled]. *)
Definition is_terminal (data : JSValue) : bool :=
  match data with
  | JSObject props =>
      strict_eq_string (lookup_prop "type" props) "final_statistics"
      || strict_eq_string (lookup_prop "type" props) "cancelled"
  | _ => false
  end.

Definition is_OnComplete (c : Call) : bool :=
  match c with OnComplete => true | _ => false end.

(** A call the consumer can make while it processes a line: never
    [onError], and [onSeasonUpdate] only on a season record. *)
Definition line_call (c : Call) : Prop :=
  match c with
  | OnSeasonUpdate data => is_season_record data = true
  | OnError _ => False
  | _ => True
  end.

(** *** A parser for the examples *)

(** JSON text written with single quotes in place of double quotes. *)
Fixpoint json_text (s : string) : string :=
  match s with
  | EmptyString => EmptyString
  | String c rest =>
      String (if Ascii.eqb c "039"%char then "034"%char else c)
        (json_text rest)
  end.

(** [JSON.parse] on the texts of the examples; any other text is taken
    to be malformed. *)
Definition example_JSON_parse (table : list (string * JSValue))
    (text : string) : Thrown + JSValue :=
  match List.find (fun entry => String.eqb (fst entry) text) table with
  | Some entry => inr (snd entry)
  | None => inl (JSError "SyntaxError" "Unexpected token")
  end.

(** *** The streams of the examples *)

Definition newline : string := String "010"%char EmptyString.

(** A server-sent event: [data: <text>] and a blank line. *)
Definition sse (text : string) : string :=
  "data: " +:+ text +:+ newline +:+ newline.

Definition example_season (n : float) : JSValue :=
  JSObject
    [ ("season"%string, JSNumber n);
      ("games"%string,
       JSArray [JSObject [ ("game"%string, JSNumber 1);
                           ("expected_wins"%string, JSNumber 0.5) ]]);
      ("total_wins"%string, JSNumber 41) ].

Definition example_final_statistics : JSValue :=
  JSObject
    [ ("type"%string, JSString "final_statistics");
      ("statistics"%string,
       JSObject [("average_expected_wins"%string, JSNumber 41)]) ].

Definition example_cancelled : JSValue :=
  JSObject
    [ ("type"%string, JSString "cancelled");
      ("message"%string, JSString "Simulation cancelled by user") ].

Definition season_text (n : string) : string :=
  json_text ("{'season':" +:+ n
             +:+ ",'games':[{'game':1,'expected_wins':0.5}],'total_wins':41}").

Definition final_statistics_text : string :=
  json_text
    "{'type':'final_statistics','statistics':{'average_expected_wins':41}}".

Definition cancelled_text : string :=
  json_text "{'type':'cancelled','message':'Simulation cancelled by user'}".

Definition example_parse : string -> Thrown + JSValue :=
  example_JSON_parse
    [ (season_text "0", example_season 0);
      (season_text "1", example_season 1);
      (season_text "2", example_season 2);
      (season_text "3", example_season 3);
      (final_statistics_text, example_final_statistics);
      (cancelled_text, example_cancelled);
      ("null"%string, JSNull) ].

(** A response whose body delivers the given chunks and then closes. *)
Definition response_with (values : list string) : Response :=
  {| ok := true; status := 200;
     body := Some {| chunks := values; ending := EndOfStream |} |}.

(** Ten seasons were requested; the run was cancelled after season 3. *)
Definition cancelled_after_three : Response :=
  response_with
    [ sse (season_text "1"); sse (season_text "2");
      sse (season_text "3") +:+ sse cancelled_text ].

(** Two seasons and the final statistics. *)
Definition two_seasons : Response :=
  response_with
    [ sse (season_text "1") +:+ sse (season_text "2");
      sse final_statistics_text ].

(** A season numbered 0 and the final statistics. *)
Definition season_zero : Response :=
  response_with [ sse (season_text "0"); sse final_statistics_text ].

(** A line cut short in the middle of a healthy stream. *)
Definition with_malformed_line : Response :=
  response_with
    [ sse (season_text "1");
      "data: {" +:+ newline +:+ "event: ping" +:+ newline
      +:+ sse (season_text "2");
      sse final_statistics_text ].

(** The lines of [cancelled_after_three] before the cancelled event. *)
Definition lines_before_cancelled : list string :=
  [ "data: " +:+ season_text "1"; ""; "";
    "data: " +:+ season_text "2"; ""; "";
    "data: " +:+ season_text "3"; "" ]%string.

(** The lines of [two_seasons] before the final statistics. *)
Definition lines_before_final : list string :=
  [ "data: " +:+ season_text "1"; "";
    "data: " +:+ season_text "2"; ""; "" ]%string.

(** The connection drops after the second season. *)
Definition dropped_after_two : Response :=
  {| ok := true; status := 200;
     body := Some {| chunks := [sse (season_text "1"); sse (season_text "2")];
                     ending := ReadFailure
                                 (JSError "TypeError" "network error") |} |}.

(** A cancellation notice followed by final statistics all the same. *)
Definition cancelled_then_final : Response :=
  response_with
    [ sse (season_text "1"); sse cancelled_text; sse final_statistics_text ].

(** A cancellation notice, then one more season, then the connection
    drops. *)
Definition cancelled_then_more : Response :=
  {| ok := true; status := 200;
     body := Some {| chunks := [ sse (season_text "1"); sse cancelled_text;
                                 sse (season_text "2") ];
                     ending := ReadFailure
                                 (JSError "TypeError" "network error") |} |}.

(** The two halves of the text of season 1, as two reads would cut it. *)
Definition season_text_head : string :=
  json_text "{'season':1,'games':[{'game':1,".

Definition season_text_tail : string :=
  json_text "'expected_wins':0.5}],'total_wins':41}".

(** Only the final statistics: no season was simulated. *)
Definition statistics_only : Response :=
  response_with [sse final_statistics_text].

(** Two seasons, then the stream closes without a terminal event. *)
Definition closed_early : Response :=
  response_with [sse (season_text "1"); sse (season_text "2")].

(** The team or season is not in the historical data. *)
Definition not_found : Response :=
  {| ok := false; status := 404; body := None |}.

End Api.

Import Api.

(** ** components/SimulationChart.tsx *)

Module SimulationChart.

(** A chart data point: an object with the member [game] and one member
    per plotted season. *)
Abbreviation DataPoint := (gmap string float).

(** [Array.from({ length: 82 }, (_, i) => i + 1)]. *)
Definition gameNumbers : list float :=
  map (fun i => Number_of_nat (i + 1)) (seq 0 82).

Section Chart.

(** The conversion of a number to text in a template literal
    ([Number::toString], the runtime's). *)
Variable Number_toString : float -> string.

(** The member name [`Season ${season.season}`]. *)
Definition seriesKey (s : SeasonData) : string :=
  "Season " +:+ Number_toString (season s).

(** [season.games.find(game => game.game === gameNum)]. *)
Definition findGame (s : SeasonData) (gameNum : float) : option GameData :=
  List.find (fun g => (game g =? gameNum)%float) (games s).

(** The body of [seasons.forEach]: a game record that was found is an
    object, hence truthy. *)
Definition addSeason (gameNum : float) (dataPoint : DataPoint)
    (s : SeasonData) : DataPoint :=
  match findGame s gameNum with
  | Some gameData => <[seriesKey s := expected_wins gameData]> dataPoint
  | None => dataPoint
  end.

(** The function mapped over [gameNumbers]. *)
Definition dataPointFor (seasons : list SeasonData) (gameNum : float)
    : DataPoint :=
  fold_left (addSeason gameNum) seasons {[ "game"%string := gameNum ]}.

(** [chartData]. *)
Definition chartData (seasons : list SeasonData) : list DataPoint :=
  map (dataPointFor seasons) gameNumbers.

End Chart.

(** *** The seasons of the examples *)

(** [Number::toString] on the season numbers of the examples. *)
Definition example_Number_toString (x : float) : string :=
  match List.find (fun entry => (fst entry =? x)%float)
          [ (1%float, "1"%string); (2%float, "2"%string);
            (3%float, "3"%string) ] with
  | Some entry => snd entry
  | None => "NaN"%string
  end.

Definition example_game (n wins : float) : GameData :=
  {| game := n; expected_wins := wins; team_score := 110; opp_score := 104;
     is_win := true |}.

(** Two seasons; the second one stops after its first game. *)
Definition example_seasons : list SeasonData :=
  [ {| season := 1;
       games := [example_game 1 0.5; example_game 2 1.25];
       final_expected_wins := 1.25; total_wins := 2; win_percentage := 1 |};
    {| season := 2;
       games := [example_game 1 0.75];
       final_expected_wins := 0.75; total_wins := 1; win_percentage := 1 |} ].

(** Season 1 received twice, with different expected wins. *)
Definition example_season_twice : list SeasonData :=
  [ {| season := 1;
       games := [example_game 1 0.5];
       final_expected_wins := 0.5; total_wins := 1; win_percentage := 1 |};
    {| season := 1;
       games := [example_game 1 0.75];
       final_expected_wins := 0.75; total_wins := 1; win_percentage := 1 |} ].

End SimulationChart.

Import SimulationChart.

(** ** App.tsx *)

Module App.

(** The statistics object [onSeasonUpdate] falls back to when the season
    record carries no [running_statistics]. *)
Definition fallbackStatistics : list (string * JSValue) :=
  [ ("average_expected_wins"%string, JSNumber 0);
    ("standard_deviation"%string, JSNumber 0);
    ("confidence_interval_95"%string, JSNumber 0);
    ("min_wins"%string, JSNumber 0);
    ("max_wins"%string, JSNumber 0);
    ("seasons_completed"%string, JSNumber 0) ].

(** [seasonData.running_statistics || { ... }]: the value stored in the
    [statistics] member of the simulation result. *)
Definition statisticsOf (seasonData : JSValue) : Thrown + JSValue :=
  match get_prop seasonData "running_statistics" with
  | inl e => inl e
  | inr running => inr (if truthy running then running
                        else JSObject fallbackStatistics)
  end.

(** The state [handleSimulate] and its callbacks work on: the local
    array [seasons] and the React state it sets. *)
Record AppState : Type := {
  seasons_array : list JSValue;
  simulationResult : option (list JSValue * JSValue);
  seasonsCompleted : nat;
  isSimulating : bool;
  error : JSValue
}.

(** The state after the resets at the top of [handleSimulate]. *)
Definition started : AppState :=
  {| seasons_array := [];
     simulationResult := None;
     seasonsCompleted := 0;
     isSimulating := true;
     error := JSString "" |}.

Section Callbacks.

(** [JSON.stringify], the runtime's, on the values a promise can be
    rejected with. *)
Variable JSON_stringify : JSValue -> string.

(** The [onSeasonUpdate] callback: push, count, and publish a copy of the
    array with the running statistics. Reading [running_statistics] comes
    last; should it throw, the push and the count have happened. *)
Definition onSeasonUpdate (seasonData : JSValue) (s : AppState)
    : AppState * option Thrown :=
  let seasons := seasons_array s ++ [seasonData] in
  let pushed :=
    {| seasons_array := seasons;
       simulationResult := simulationResult s;
       seasonsCompleted := length seasons;
       isSimulating := isSimulating s;
       error := error s |} in
  match statisticsOf seasonData with
  | inr statistics =>
      ({| seasons_array := seasons;
          simulationResult := Some (seasons, statistics);
          seasonsCompleted := length seasons;
          isSimulating := isSimulating s;
          error := error s |}, None)
  | inl e => (pushed, Some e)
  end.

(** The [onStatsUpdate] callback:
    [prev => prev ? { ...prev, statistics: stats } : null]. *)
Definition onStatsUpdate (stats : JSValue) (s : AppState) : AppState :=
  {| seasons_array := seasons_array s;
     simulationResult :=
       match simulationResult s with
       | Some (seasons, _) => Some (seasons, stats)
       | None => None
       end;
     seasonsCompleted := seasonsCompleted s;
     isSimulating := isSimulating s;
     error := error s |}.

(** The [onComplete] callback. *)
Definition onComplete (s : AppState) : AppState :=
  {| seasons_array := seasons_array s;
     simulationResult := simulationResult s;
     seasonsCompleted := seasonsCompleted s;
     isSimulating := false;
     error := error s |}.

(** An error object of the runtime: its name and message. *)
Definition ErrorObject : Type := string * string.

(** The message the [onError] callback extracts: [err.message] if truthy,
    else the error itself if it is a string, else its JSON text if it is
    an object, else the default. An error object has no enumerable
    member, so its JSON text is an empty object. Reading [message] of
    [null] or [undefined] throws a [TypeError]. *)
Definition errorMessage (err : Thrown) : ErrorObject + JSValue :=
  match err with
  | JSError _ message =>
      inr (if negb (String.eqb message "") then JSString message
           else JSString "{}")
  | Rejection JSUndefined | Rejection JSNull =>
      inl ("TypeError"%string,
           "Cannot read properties of null or undefined (reading 'message')"%string)
  | Rejection (JSObject props) =>
      inr (if truthy (lookup_prop "message" props)
           then lookup_prop "message" props
           else JSString (JSON_stringify (JSObject props)))
  | Rejection (JSString text) => inr (JSString text)
  | Rejection (JSArray elems) =>
      inr (JSString (JSON_stringify (JSArray elems)))
  | Rejection (JSBool _) | Rejection (JSNumber _) =>
      inr (JSString "Simulation failed. Please try again.")
  end.

(** The [onError] callback. *)
Definition onError (err : Thrown) (s : AppState)
    : AppState * option ErrorObject :=
  match errorMessage err with
  | inr message =>
      ({| seasons_array := seasons_array s;
          simulationResult := simulationResult s;
          seasonsCompleted := seasonsCompleted s;
          isSimulating := false;
          error := message |}, None)
  | inl e => (s, Some e)
  end.

(** The calls of a run applied in order. What [onSeasonUpdate] throws is
    caught by the [try] block of the consumer, which goes on with the
    next line; what [onError] throws leaves the consumer and ends the
    run. The console calls leave the state alone. *)
Fixpoint apply_calls (t : list Call) (s : AppState)
    : AppState * option ErrorObject :=
  match t with
  | [] => (s, None)
  | OnSeasonUpdate seasonData :: rest =>
      apply_calls rest (fst (onSeasonUpdate seasonData s))
  | OnStatsUpdate stats :: rest => apply_calls rest (onStatsUpdate stats s)
  | OnComplete :: rest => apply_calls rest (onComplete s)
  | OnError err :: rest =>
      match onError err s with
      | (s', None) => apply_calls rest s'
      | (s', Some e) => (s', Some e)
      end
  | ConsoleLog _ _ :: rest | ConsoleError _ _ :: rest => apply_calls rest s
  end.

(** The [catch] block around the [await], on an error object of the
    runtime: it has no [response] member, so the message is its
    [message] if truthy and its JSON text otherwise. *)
Definition outer_catch (err : ErrorObject) (s : AppState) : AppState :=
  {| seasons_array := seasons_array s;
     simulationResult := simulationResult s;
     seasonsCompleted := seasonsCompleted s;
     isSimulating := false;
     error := if negb (String.eqb (snd err) "") then JSString (snd err)
              else JSString "{}" |}.

(** [handleSimulate]: nothing without a selected team; otherwise the
    resets, then the callbacks as the stream consumer calls them. *)
Definition handleSimulate (JSON_parse : string -> Thrown + JSValue)
    (selectedTeam : string) (fetched : Thrown + Response)
    (prior : AppState) : AppState :=
  if String.eqb selectedTeam "" then prior
  else
    match apply_calls (trace (simulateSeasonsStream JSON_parse fetched))
            started with
    | (s, None) => s
    | (s, Some e) => outer_catch e s
    end.

End Callbacks.

(** The state the application keeps between callbacks: the counter is the
    length of the array, and the published result, once there is one,
    holds the whole array. *)
Definition consistent (s : AppState) : Prop :=
  seasonsCompleted s = length (seasons_array s)
  /\ match simulationResult s with
     | Some (seasons, _) => seasons = seasons_array s /\ seasons <> []
     | None => seasons_array s = []
     end.

(** [JSON.stringify] on the values of the examples. *)
Definition example_JSON_stringify (v : JSValue) : string :=
  match v with
  | JSObject [] => "{}"
  | JSArray [] => "[]"
  | _ => "null"
  end.

End App.

Import App.

(** * Properties *)

(** ** Facts on binary64 numbers, from their specification *)

Module Float64.








Lemma SFcompare_antisym x y c :
  SFcompare x y = Some c -> SFcompare y x = Some (CompOpp c).
Proof.
  destruct x as [sx|sx| |sx mx ex], y as [sy|sy| |sy my ey]; simpl;
    try discriminate; intros [= <-]; f_equal;
    try (destruct sx; reflexivity); try (destruct sy; reflexivity);
    try (destruct sx, sy; reflexivity).
  destruct sx, sy; try reflexivity;
    rewrite (Z.compare_antisym ex ey);
    destruct (ex ?= ey)%Z; simpl; try reflexivity;
    change (Pos.compare_cont Eq my mx) with (Pos.compare my mx);
    change (Pos.compare_cont Eq mx my) with (Pos.compare mx my);
    rewrite (Pos.compare_antisym mx my); reflexivity.
Qed.


Lemma is_nan_spec x : is_nan x = SFis_nan (Prim2SF x).
Proof.
  unfold is_nan. rewrite FloatAxioms.eqb_spec. unfold SFeqb.
  destruct (Prim2SF x) as [s|s| |s m e]; simpl; try reflexivity.
  - destruct s; reflexivity.
  - destruct s; rewrite Z.compare_refl, Pos.compare_cont_refl; reflexivity.
Qed.

Lemma is_infinity_spec x : is_infinity x = SFis_inf (Prim2SF x).
Proof.
  unfold is_infinity.
  rewrite FloatAxioms.eqb_spec, FloatAxioms.abs_spec. unfold SFeqb.
  change (Prim2SF infinity) with (S754_infinity false).
  destruct (Prim2SF x) as [s|s| |s m e]; reflexivity.
Qed.

Lemma ltb_leb x y : (x <? y)%float = true -> (x <=? y)%float = true.
Proof.
  rewrite FloatAxioms.ltb_spec, FloatAxioms.leb_spec. unfold SFltb, SFleb.
  destruct (SFcompare _ _) as [[]|]; congruence.
Qed.

Lemma leb_not_ltb x y : (x <=? y)%float = true -> (y <? x)%float = false.
Proof.
  rewrite FloatAxioms.ltb_spec, FloatAxioms.leb_spec. unfold SFltb, SFleb.
  destruct (SFcompare (Prim2SF x) (Prim2SF y)) as [c|] eqn:Hc; try discriminate.
  rewrite (SFcompare_antisym _ _ _ Hc). destruct c; simpl; congruence.
Qed.


Lemma leb_not_nan_l x y : (x <=? y)%float = true -> is_nan x = false.
Proof.
  rewrite is_nan_spec, FloatAxioms.leb_spec. unfold SFleb.
  destruct (Prim2SF x); simpl; try reflexivity; discriminate.
Qed.

Lemma leb_not_nan_r x y : (x <=? y)%float = true -> is_nan y = false.
Proof.
  rewrite is_nan_spec, FloatAxioms.leb_spec. unfold SFleb.
  destruct (Prim2SF x), (Prim2SF y); simpl; try reflexivity; discriminate.
Qed.


End Float64.

(** ** The adjustment controls *)

Section Clamp.

Import Float64.

Lemma in_unit_interval_not_nan x :
  in_unit_interval x = true -> is_nan x = false.
Proof.
  unfold in_unit_interval. intros [_ H]%andb_prop.
  exact (leb_not_nan_l _ _ H).
Qed.





(** The clamp passes NaN through. *)
Lemma clamp_nan s :
  is_nan s = true -> Math_max 0 (Math_min 1 s) = nan.
Proof.
  intros Hs. unfold Math_min. rewrite Hs, orb_true_r. reflexivity.
Qed.





(** None of the twelve metric keys is a name of [Object.prototype]. *)
Lemma metric_key_not_inherited m : inherited (metric_key m) = false.
Proof. destruct m; reflexivity. Qed.

Lemma adjustMetric_stored metric delta (prev : AdjustedMetrics) :
  adjustMetric metric delta prev !! metric
  = Some (clamped_sum (find_member prev metric) delta).
Proof. unfold adjustMetric. apply lookup_insert_eq. Qed.

(** On a key that is no name of [Object.prototype], what is stored is the
    clamp of the sum of the previous value (0 if absent) and the
    delta. *)
Lemma clamped_sum_not_inherited metric delta (prev : AdjustedMetrics) :
  inherited metric = false ->
  clamped_sum (find_member prev metric) delta
  = Math_max 0 (Math_min 1 (previous_or_zero prev metric + delta)).
Proof.
  intros Hkey. unfold find_member, previous_or_zero.
  destruct (prev !! metric); [reflexivity|]. rewrite Hkey. reflexivity.
Qed.

Lemma adjustMetric_lookup metric delta (prev : AdjustedMetrics) :
  inherited metric = false ->
  adjustMetric metric delta prev !! metric
  = Some (Math_max 0 (Math_min 1 (previous_or_zero prev metric + delta))).
Proof.
  intros Hkey.
  rewrite adjustMetric_stored, clamped_sum_not_inherited by exact Hkey.
  reflexivity.
Qed.

Lemma adjustMetric_lookup_ne metric delta (prev : AdjustedMetrics) key :
  metric <> key -> adjustMetric metric delta prev !! key = prev !! key.
Proof. intros Hne. unfold adjustMetric. apply lookup_insert_ne, Hne. Qed.



End Clamp.

Section Additional.

Import Float64.

Lemma metric_key_inj m1 m2 : metric_key m1 = metric_key m2 -> m1 = m2.
Proof. destruct m1, m2; simpl; intros H; try reflexivity; discriminate. Qed.

(** The baseline of a metric is the value [resetAllMetrics] gives it. *)
Lemma resetAllMetrics_baseline original m :
  member (resetAllMetrics original) (metric_key m) = baseline m original.
Proof.
  unfold member, resetAllMetrics. destruct m; simpl;
    repeat (rewrite lookup_insert_ne by discriminate);
    rewrite lookup_insert_eq; reflexivity.
Qed.

Lemma getAdditional_unchanged adjustedValue originalValue formula :
  (Math_abs (adjustedValue - originalValue) <? EPSILON)%float = true ->
  getAdditional adjustedValue originalValue formula = 0%float.
Proof. unfold getAdditional. intros ->. reflexivity. Qed.

Lemma getAdditional_changed adjustedValue originalValue formula :
  (Math_abs (adjustedValue - originalValue) <? EPSILON)%float = false ->
  getAdditional adjustedValue originalValue formula = formula tt.
Proof. unfold getAdditional. intros ->. reflexivity. Qed.

(** Every variable is [getAdditional] of its metric's adjusted value,
    baseline and redistribution formula. *)
Lemma calculateVariables_additional original adjusted :
  exists vars,
    calculateVariables (Some original) adjusted = Some vars
    /\ forall m,
         additional m vars
         = getAdditional (member adjusted (metric_key m)) (baseline m original)
             (fun _ => redistribution m original
                         (member adjusted (metric_key m))).
Proof.
  eexists. split; [reflexivity|]. intros m. destruct m; reflexivity.
Qed.

End Additional.

(** C1. For every metric, the variable [calculateVariables] computes is 0
    exactly when the absolute difference between the adjusted value and
    the baseline is below the epsilon 1e-4, and is otherwise the metric's
    redistribution formula applied to the adjusted value. *)
Theorem calculateVariables_epsilon_threshold
    (original : TeamMetrics) (adjusted : AdjustedMetrics) :
  exists vars,
    calculateVariables (Some original) adjusted = Some vars
    /\ forall m : Metric,
         additional m vars
         = if (Math_abs (member adjusted (metric_key m) - baseline m original)
               <? 0.0001)%float
           then 0%float
           else redistribution m original (member adjusted (metric_key m)).
Proof.
  destruct (calculateVariables_additional original adjusted)
    as (vars & Hvars & Hall).
  exists vars. split; [exact Hvars|]. intros m. rewrite Hall.
  reflexivity.
Qed.

(** C2. For a rebound metric whose adjusted percentage differs from the
    baseline REB_PCT by at least the epsilon, the additional-rebound
    variable is (REB / REB_PCT) * new_PCT - REB. *)
Theorem additional_rebounds_ratio_formula
    (original : TeamMetrics) (adjusted : AdjustedMetrics)
    (m : Metric) (REB REB_PCT : float) :
  rebound_stats m original = Some (REB, REB_PCT) ->
  (0.0001 <=? Math_abs (member adjusted (metric_key m) - REB_PCT))%float
    = true ->
  exists vars,
    calculateVariables (Some original) adjusted = Some vars
    /\ additional m vars
       = ((REB / REB_PCT) * member adjusted (metric_key m) - REB)%float.
Proof.
  intros Hstats Hdiff.
  destruct (calculateVariables_additional original adjusted)
    as (vars & Hvars & Hall).
  exists vars. split; [exact Hvars|]. rewrite Hall.
  apply Float64.leb_not_ltb in Hdiff.
  destruct m; try discriminate Hstats;
    injection Hstats as <- <-;
    rewrite getAdditional_changed by exact Hdiff; reflexivity.
Qed.

Lemma additional_rebounds_ratio_formula_witness :
  exists vars,
    calculateVariables (Some example_team)
      (adjustMetric "dreb_pct" 0.01 (resetAllMetrics example_team))
    = Some vars
    /\ additional Dreb vars
       = ((2700 / 0.72)
          * member (adjustMetric "dreb_pct" 0.01 (resetAllMetrics example_team))
              "dreb_pct"
          - 2700)%float.
Proof.
  apply (additional_rebounds_ratio_formula example_team
           (adjustMetric "dreb_pct" 0.01 (resetAllMetrics example_team))
           Dreb 2700 0.72).
  - reflexivity.
  - vm_compute. reflexivity.
Defined.








(** On a name of [Object.prototype] that is not an own member, the value
    read is a function: a click stores NaN. *)
Example adjustMetric_inherited_name :
  adjustMetric "constructor" 0.01 (resetAllMetrics example_team)
    !! "constructor"
  = Some nan
  /\ adjustMetric "constructor" 0.01
       (adjustMetric "constructor" 0.01 (resetAllMetrics example_team))
       !! "constructor"
     = Some 0.01%float.
Proof. split; vm_compute; reflexivity. Qed.

(** ** The stream consumer *)

Section StreamFacts.

Variable JSON_parse : string -> Thrown + JSValue.

Local Ltac run := unfold mbind, mret, Eff_bind, Eff_ret, bind, ret, lift,
  call, throw, try_catch, trace, outcome; simpl.

(** What [dispatch] does, by the shape of the event. *)
Lemma dispatch_object props :
  dispatch (JSObject props)
  = if strict_eq_string (lookup_prop "type" props) "final_statistics" then
      ([OnStatsUpdate (lookup_prop "statistics" props); OnComplete], inr tt)
    else if strict_eq_string (lookup_prop "type" props) "cancelled" then
      ([OnComplete;
        ConsoleLog "Simulation cancelled:" (lookup_prop "message" props)],
       inr tt)
    else if truthy (lookup_prop "season" props)
            && truthy (lookup_prop "games" props) then
      ([OnSeasonUpdate (JSObject props)], inr tt)
    else ([], inr tt).
Proof.
  unfold dispatch. run.
  destruct (strict_eq_string (lookup_prop "type" props) "final_statistics");
    [reflexivity|].
  destruct (strict_eq_string (lookup_prop "type" props) "cancelled");
    [reflexivity|].
  destruct (truthy (lookup_prop "season" props)) eqn:Hseason; simpl.
  - destruct (truthy (lookup_prop "games" props)); reflexivity.
  - rewrite Hseason. reflexivity.
Qed.

Lemma dispatch_not_object data :
  (forall props, data <> JSObject props) ->
  trace (dispatch data) = [].
Proof.
  intros Hno. destruct data; try reflexivity. now elim (Hno props).
Qed.

Lemma dispatch_season_updates data :
  season_updates (trace (dispatch data))
  = if is_season_record data then [data] else [].
Proof.
  destruct data; try reflexivity.
  rewrite dispatch_object. unfold is_season_record.
  destruct (strict_eq_string _ "final_statistics"); [reflexivity|].
  destruct (strict_eq_string _ "cancelled"); [reflexivity|]. simpl.
  destruct (truthy (lookup_prop "season" props)); simpl; [|reflexivity].
  destruct (truthy (lookup_prop "games" props)); reflexivity.
Qed.

Lemma dispatch_no_OnError data :
  forallb (fun c => negb (is_OnError c)) (trace (dispatch data)) = true.
Proof.
  destruct data; try reflexivity.
  rewrite dispatch_object.
  repeat match goal with |- context [if ?b then _ else _] => destruct b end;
    reflexivity.
Qed.

(** A line never throws: the [try] block catches what parsing and
    dispatching throw. *)
Lemma process_line_outcome line :
  outcome (process_line JSON_parse line) = inr tt.
Proof.
  unfold process_line. destruct (startsWith line "data: "); [|reflexivity].
  run. destruct (JSON_parse (slice line 6)) as [e|data]; [reflexivity|].
  destruct (dispatch data) as [t [e|[]]]; reflexivity.
Qed.

(** The calls of a line, by what the line carries. *)
Lemma process_line_trace line :
  trace (process_line JSON_parse line)
  = if startsWith line "data: " then
      match JSON_parse (slice line 6) with
      | inl e => [ConsoleError "Error parsing stream data:" e]
      | inr data =>
          match outcome (dispatch data) with
          | inl e => trace (dispatch data)
                     ++ [ConsoleError "Error parsing stream data:" e]
          | inr _ => trace (dispatch data)
          end
      end
    else [].
Proof.
  unfold process_line. destruct (startsWith line "data: "); [|reflexivity].
  run. destruct (JSON_parse (slice line 6)) as [e|data]; [reflexivity|].
  destruct (dispatch data) as [t [e|[]]]; reflexivity.
Qed.

Lemma process_line_event line data :
  event_of JSON_parse line = Some data ->
  outcome (dispatch data) = inr tt ->
  trace (process_line JSON_parse line) = trace (dispatch data).
Proof.
  unfold event_of. rewrite process_line_trace.
  destruct (startsWith line "data: "); [|discriminate].
  destruct (JSON_parse (slice line 6)); [discriminate|].
  intros [= ->] ->. reflexivity.
Qed.

Lemma process_line_season_updates line :
  season_updates (trace (process_line JSON_parse line))
  = match event_of JSON_parse line with
    | Some data => if is_season_record data then [data] else []
    | None => []
    end.
Proof.
  rewrite process_line_trace. unfold event_of.
  destruct (startsWith line "data: "); [|reflexivity].
  destruct (JSON_parse (slice line 6)) as [e|data]; [reflexivity|].
  rewrite <- dispatch_season_updates.
  destruct (outcome (dispatch data)); [|reflexivity].
  unfold season_updates. rewrite omap_app. simpl. apply app_nil_r.
Qed.

Lemma process_line_no_OnError line :
  forallb (fun c => negb (is_OnError c))
    (trace (process_line JSON_parse line)) = true.
Proof.
  rewrite process_line_trace.
  destruct (startsWith line "data: "); [|reflexivity].
  destruct (JSON_parse (slice line 6)) as [e|data]; [reflexivity|].
  destruct (outcome (dispatch data)); [|apply dispatch_no_OnError].
  rewrite forallb_app, dispatch_no_OnError. reflexivity.
Qed.

(** A line that is not a [data: ] line, or whose text does not parse,
    invokes no callback. *)
Lemma process_line_malformed line :
  event_of JSON_parse line = None ->
  callbacks (trace (process_line JSON_parse line)) = [].
Proof.
  unfold event_of. rewrite process_line_trace.
  destruct (startsWith line "data: "); [|reflexivity].
  destruct (JSON_parse (slice line 6)); [reflexivity|discriminate].
Qed.

Lemma for_each_line_run lines :
  for_each_line JSON_parse lines = (calls_of_lines JSON_parse lines, inr tt).
Proof.
  induction lines as [|line lines IH]; [reflexivity|].
  simpl. rewrite IH. run.
  pose proof (process_line_outcome line) as Ho. unfold outcome in Ho.
  destruct (process_line JSON_parse line) as [t r]. simpl in *.
  rewrite Ho. reflexivity.
Qed.

Lemma calls_of_lines_app l1 l2 :
  calls_of_lines JSON_parse (l1 ++ l2)
  = calls_of_lines JSON_parse l1 ++ calls_of_lines JSON_parse l2.
Proof. unfold calls_of_lines. apply flat_map_app. Qed.

Lemma read_loop_run values last :
  read_loop JSON_parse values last
  = (calls_of_lines JSON_parse (stream_lines values),
     match last with
     | EndOfStream => inr tt
     | ReadFailure reason => inl reason
     end).
Proof.
  induction values as [|value values IH].
  - destruct last; reflexivity.
  - simpl. unfold process_chunk. rewrite IH, for_each_line_run. run.
    change (stream_lines (value :: values))
      with (split_lines value ++ stream_lines values).
    rewrite calls_of_lines_app. reflexivity.
Qed.

(** The whole run on a response that is ok and has a body: the calls of
    the lines, then the call of the way the stream ends; the promise
    always resolves. *)
Lemma simulateSeasonsStream_run response reader :
  ok response = true -> body response = Some reader ->
  simulateSeasonsStream JSON_parse (inr response)
  = (calls_of_lines JSON_parse (stream_lines (chunks reader))
     ++ call_of_ending (ending reader), inr tt).
Proof.
  intros Hok Hbody. unfold simulateSeasonsStream. run.
  rewrite Hok, Hbody. simpl. rewrite read_loop_run.
  destruct (ending reader); simpl; rewrite ?app_nil_r; reflexivity.
Qed.

Lemma season_updates_app t1 t2 :
  season_updates (t1 ++ t2) = season_updates t1 ++ season_updates t2.
Proof. unfold season_updates. apply omap_app. Qed.

Lemma calls_of_lines_season_updates lines :
  season_updates (calls_of_lines JSON_parse lines)
  = filter (fun d => is_season_record d) (events JSON_parse lines).
Proof.
  induction lines as [|line lines IH]; [reflexivity|].
  change (calls_of_lines JSON_parse (line :: lines))
    with (trace (process_line JSON_parse line)
          ++ calls_of_lines JSON_parse lines).
  rewrite season_updates_app, IH, process_line_season_updates.
  unfold events. simpl.
  destruct (event_of JSON_parse line) as [data|]; [|reflexivity].
  rewrite filter_cons. destruct (is_season_record data); reflexivity.
Qed.

Lemma calls_of_lines_no_OnError lines :
  forallb (fun c => negb (is_OnError c)) (calls_of_lines JSON_parse lines)
  = true.
Proof.
  induction lines as [|line lines IH]; [reflexivity|].
  change (calls_of_lines JSON_parse (line :: lines))
    with (trace (process_line JSON_parse line)
          ++ calls_of_lines JSON_parse lines).
  rewrite forallb_app, IH, process_line_no_OnError. reflexivity.
Qed.

End StreamFacts.

Example cancelled_after_three_trace :
  trace (simulateSeasonsStream example_parse (inr cancelled_after_three))
  = [ OnSeasonUpdate (example_season 1); OnSeasonUpdate (example_season 2);
      OnSeasonUpdate (example_season 3); OnComplete;
      ConsoleLog "Simulation cancelled:"
        (JSString "Simulation cancelled by user") ].
Proof. vm_compute. reflexivity. Qed.

Example two_seasons_trace :
  trace (simulateSeasonsStream example_parse (inr two_seasons))
  = [ OnSeasonUpdate (example_season 1); OnSeasonUpdate (example_season 2);
      OnStatsUpdate (JSObject [("average_expected_wins"%string, JSNumber 41)]);
      OnComplete ].
Proof. vm_compute. reflexivity. Qed.

Example with_malformed_line_trace :
  trace (simulateSeasonsStream example_parse (inr with_malformed_line))
  = [ OnSeasonUpdate (example_season 1);
      ConsoleError "Error parsing stream data:"
        (JSError "SyntaxError" "Unexpected token");
      OnSeasonUpdate (example_season 2);
      OnStatsUpdate (JSObject [("average_expected_wins"%string, JSNumber 41)]);
      OnComplete ].
Proof. vm_compute. reflexivity. Qed.

Example not_found_trace :
  simulateSeasonsStream example_parse (inr not_found)
  = ([OnError (JSError "Error" "HTTP error! status: 404")], inr tt).
Proof. vm_compute. reflexivity. Qed.

Section StreamClaims.

Variable JSON_parse : string -> Thrown + JSValue.

Lemma process_line_cancelled line data :
  event_of JSON_parse line = Some data -> has_type data "cancelled" ->
  exists message,
    get_prop data "message" = inr message
    /\ trace (process_line JSON_parse line)
       = [OnComplete; ConsoleLog "Simulation cancelled:" message].
Proof.
  intros Hev (props & -> & Htype).
  exists (lookup_prop "message" props). split; [reflexivity|].
  rewrite (process_line_event _ _ _ Hev);
    rewrite dispatch_object, Htype; reflexivity.
Qed.

Lemma process_line_final_statistics line data :
  event_of JSON_parse line = Some data -> has_type data "final_statistics" ->
  exists statistics,
    get_prop data "statistics" = inr statistics
    /\ trace (process_line JSON_parse line)
       = [OnStatsUpdate statistics; OnComplete].
Proof.
  intros Hev (props & -> & Htype).
  exists (lookup_prop "statistics" props). split; [reflexivity|].
  rewrite (process_line_event _ _ _ Hev);
    rewrite dispatch_object, Htype; reflexivity.
Qed.

Lemma process_line_season_record line data :
  event_of JSON_parse line = Some data -> is_season_record data = true ->
  trace (process_line JSON_parse line) = [OnSeasonUpdate data].
Proof.
  intros Hev Hrec. destruct data; try discriminate Hrec.
  simpl in Hrec.
  apply andb_prop in Hrec as [Hrec Hgames].
  apply andb_prop in Hrec as [Hrec Hseason].
  apply andb_prop in Hrec as [Hfinal Hcancelled].
  apply negb_true_iff in Hfinal, Hcancelled.
  rewrite (process_line_event _ _ _ Hev);
    rewrite dispatch_object, Hfinal, Hcancelled, Hseason, Hgames; reflexivity.
Qed.

(** When every event is a season record, the callbacks are one
    [onSeasonUpdate] per event, in order. *)
Lemma callbacks_of_season_records lines :
  Forall (fun d => is_season_record d = true) (events JSON_parse lines) ->
  callbacks (calls_of_lines JSON_parse lines)
  = map OnSeasonUpdate (events JSON_parse lines).
Proof.
  induction lines as [|line lines IH]; intros Hall; [reflexivity|].
  change (calls_of_lines JSON_parse (line :: lines))
    with (trace (process_line JSON_parse line)
          ++ calls_of_lines JSON_parse lines).
  unfold callbacks in *. rewrite filter_app.
  unfold events in *. simpl in *.
  destruct (event_of JSON_parse line) as [data|] eqn:Hev.
  - apply Forall_cons in Hall as [Hrec Hall].
    rewrite (process_line_season_record _ _ Hev Hrec), IH by exact Hall.
    reflexivity.
  - pose proof (process_line_malformed JSON_parse line Hev) as Hnone.
    unfold callbacks in Hnone. rewrite Hnone, IH by exact Hall. reflexivity.
Qed.

End StreamClaims.

Lemma numbered_SeasonData_season_record data :
  is_numbered_SeasonData data = true -> is_season_record data = true.
Proof.
  destruct data; try discriminate. simpl.
  destruct (negb _ && negb _); [|discriminate]. simpl.
  destruct (lookup_prop "season" props); try discriminate.
  destruct (lookup_prop "games" props); try discriminate.
  simpl. intros ->. reflexivity.
Qed.

Lemma filter_numbered_SeasonData (records : list JSValue) :
  filter (fun d => is_numbered_SeasonData d)
    (filter (fun d => is_season_record d) records)
  = filter (fun d => is_numbered_SeasonData d) records.
Proof.
  induction records as [|d records IH]; [reflexivity|].
  rewrite (filter_cons (fun d => is_season_record d)).
  rewrite (filter_cons (fun d => is_numbered_SeasonData d) d records).
  destruct (is_season_record d) eqn:Hrec; simpl.
  - rewrite filter_cons, IH. reflexivity.
  - rewrite IH. destruct (is_numbered_SeasonData d) eqn:Hn; [|reflexivity].
    rewrite (numbered_SeasonData_season_record d Hn) in Hrec. discriminate.
Qed.

(** C3, as the code has it. When the consumer receives an event whose
    type is [cancelled], the calls made for that event are [onComplete]
    and a console log: neither [onStatsUpdate] nor [onError]. Each season
    record with a season number other than 0 that was received before it
    has invoked [onSeasonUpdate] exactly once, in order, and [onError] has
    not been called before it. The consumer does not stop at the event:
    the calls of the lines after it, and of the way the stream ends,
    follow. *)
Theorem cancelled_event_completes_without_error
    (JSON_parse : string -> Thrown + JSValue)
    (response : Response) (reader : Reader)
    (before after : list string) (line : string) (data : JSValue) :
  ok response = true ->
  body response = Some reader ->
  stream_lines (chunks reader) = before ++ line :: after ->
  event_of JSON_parse line = Some data ->
  has_type data "cancelled" ->
  exists message,
    trace (process_line JSON_parse line)
    = [OnComplete; ConsoleLog "Simulation cancelled:" message]
    /\ filter is_OnStatsUpdate (trace (process_line JSON_parse line)) = []
    /\ filter is_OnError (trace (process_line JSON_parse line)) = []
    /\ filter (fun d => is_numbered_SeasonData d)
         (season_updates (calls_of_lines JSON_parse before))
       = filter (fun d => is_numbered_SeasonData d)
           (events JSON_parse before)
    /\ filter is_OnError (calls_of_lines JSON_parse before) = []
    /\ trace (simulateSeasonsStream JSON_parse (inr response))
       = calls_of_lines JSON_parse before
         ++ [OnComplete; ConsoleLog "Simulation cancelled:" message]
         ++ calls_of_lines JSON_parse after
         ++ call_of_ending (ending reader).
Proof.
  intros Hok Hbody Hlines Hev Htype.
  destruct (process_line_cancelled JSON_parse line data Hev Htype)
    as (message & _ & Hline).
  exists message. rewrite Hline.
  split; [reflexivity|]. split; [reflexivity|]. split; [reflexivity|].
  split; [|split].
  - rewrite calls_of_lines_season_updates. apply filter_numbered_SeasonData.
  - pose proof (calls_of_lines_no_OnError JSON_parse before) as Hno.
    induction (calls_of_lines JSON_parse before) as [|c t IH];
      [reflexivity|].
    simpl in Hno. apply andb_prop in Hno as [Hc Hno].
    rewrite filter_cons. apply negb_true_iff in Hc.
    destruct (decide (is_OnError c)) as [Hd|Hd].
    + rewrite Hc in Hd. contradiction.
    + apply IH, Hno.
  - rewrite (simulateSeasonsStream_run JSON_parse response reader Hok Hbody).
    simpl. rewrite Hlines, calls_of_lines_app.
    change (calls_of_lines JSON_parse (line :: after))
      with (trace (process_line JSON_parse line)
            ++ calls_of_lines JSON_parse after).
    rewrite Hline, <- !app_assoc. reflexivity.
Qed.

Lemma cancelled_event_completes_without_error_witness :
  exists message,
    trace (process_line example_parse ("data: " +:+ cancelled_text))
    = [OnComplete; ConsoleLog "Simulation cancelled:" message]
    /\ filter is_OnStatsUpdate
         (trace (process_line example_parse ("data: " +:+ cancelled_text)))
       = []
    /\ filter is_OnError
         (trace (process_line example_parse ("data: " +:+ cancelled_text)))
       = []
    /\ filter (fun d => is_numbered_SeasonData d)
         (season_updates (calls_of_lines example_parse lines_before_cancelled))
       = filter (fun d => is_numbered_SeasonData d)
           (events example_parse lines_before_cancelled)
    /\ filter is_OnError (calls_of_lines example_parse lines_before_cancelled)
       = []
    /\ trace (simulateSeasonsStream example_parse (inr cancelled_after_three))
       = calls_of_lines example_parse lines_before_cancelled
         ++ [OnComplete; ConsoleLog "Simulation cancelled:" message]
         ++ calls_of_lines example_parse [""; ""]%string
         ++ call_of_ending EndOfStream.
Proof.
  apply (cancelled_event_completes_without_error example_parse
           cancelled_after_three
           {| chunks := [ sse (season_text "1"); sse (season_text "2");
                          sse (season_text "3") +:+ sse cancelled_text ];
              ending := EndOfStream |}
           lines_before_cancelled [""; ""]%string
           ("data: " +:+ cancelled_text) example_cancelled).
  - reflexivity.
  - reflexivity.
  - vm_compute. reflexivity.
  - vm_compute. reflexivity.
  - eexists. split; reflexivity.
Defined.

Example season_records_before_cancelled :
  filter (fun d => is_numbered_SeasonData d)
    (events example_parse lines_before_cancelled)
  = [example_season 1; example_season 2; example_season 3].
Proof. vm_compute. reflexivity. Qed.

(** The claim as stated fails on what follows a cancellation: the
    consumer does not stop at the cancelled event. A season record that
    arrives after it still reaches [onSeasonUpdate], and a read that fails
    after it still reaches [onError]. *)
Lemma cancelled_is_not_terminal_counterexample :
  events example_parse
    (stream_lines [ sse (season_text "1"); sse cancelled_text;
                    sse (season_text "2") ])
  = [example_season 1; example_cancelled; example_season 2]
  /\ has_type example_cancelled "cancelled"
  /\ callbacks
       (trace (simulateSeasonsStream example_parse (inr cancelled_then_more)))
     = [ OnSeasonUpdate (example_season 1); OnComplete;
         OnSeasonUpdate (example_season 2);
         OnError (JSError "TypeError" "network error") ].
Proof.
  split; [vm_compute; reflexivity|]. split.
  - eexists. split; reflexivity.
  - vm_compute. reflexivity.
Qed.

(** C4, on the code. The guard of the branch commented [This is season
    data] tests [data.season && data.games] for truthiness, so a season
    record numbered 0 never reaches [onSeasonUpdate]: on the stream of
    that one record followed by the final statistics the callbacks are
    [onStatsUpdate] and [onComplete] only, where the same record numbered
    1 is delivered first. *)
Theorem season_zero_record_is_dropped :
  events example_parse
    (stream_lines [sse (season_text "0"); sse final_statistics_text])
  = [example_season 0; example_final_statistics]
  /\ carries (example_season 0) "season"
  /\ carries (example_season 0) "games"
  /\ get_prop (example_season 0) "season" = inr (JSNumber 0)
  /\ callbacks (trace (simulateSeasonsStream example_parse (inr season_zero)))
     = [ OnStatsUpdate
           (JSObject [("average_expected_wins"%string, JSNumber 41)]);
         OnComplete ]
  /\ callbacks
       (trace (simulateSeasonsStream example_parse
                 (inr (response_with
                         [sse (season_text "1"); sse final_statistics_text]))))
     = [ OnSeasonUpdate (example_season 1);
         OnStatsUpdate
           (JSObject [("average_expected_wins"%string, JSNumber 41)]);
         OnComplete ].
Proof.
  split; [vm_compute; reflexivity|].
  split; [eexists; split; [reflexivity|simpl; auto]|].
  split; [eexists; split; [reflexivity|simpl; auto]|].
  split; [reflexivity|].
  split; vm_compute; reflexivity.
Qed.

(** On a stream that closes normally and whose events are n season
    records (events that pass the guard of the consumer: neither terminal
    type, [season] and [games] truthy) followed by one event of type
    [final_statistics], the callbacks are the n [onSeasonUpdate] calls, in
    order, then [onStatsUpdate] with the statistics payload and
    [onComplete]; the promise resolves. *)
Theorem final_statistics_after_season_records
    (JSON_parse : string -> Thrown + JSValue)
    (response : Response) (reader : Reader)
    (before after : list string) (line : string) (data : JSValue) :
  ok response = true ->
  body response = Some reader ->
  ending reader = EndOfStream ->
  stream_lines (chunks reader) = before ++ line :: after ->
  event_of JSON_parse line = Some data ->
  has_type data "final_statistics" ->
  Forall (fun d => is_season_record d = true) (events JSON_parse before) ->
  events JSON_parse after = [] ->
  exists statistics,
    get_prop data "statistics" = inr statistics
    /\ trace (process_line JSON_parse line)
       = [OnStatsUpdate statistics; OnComplete]
    /\ callbacks (trace (simulateSeasonsStream JSON_parse (inr response)))
       = map OnSeasonUpdate (events JSON_parse before)
         ++ [OnStatsUpdate statistics; OnComplete]
    /\ outcome (simulateSeasonsStream JSON_parse (inr response)) = inr tt.
Proof.
  intros Hok Hbody Hend Hlines Hev Htype Hbefore Hafter.
  destruct (process_line_final_statistics JSON_parse line data Hev Htype)
    as (statistics & Hstats & Hline).
  exists statistics. split; [exact Hstats|]. split; [exact Hline|].
  rewrite (simulateSeasonsStream_run JSON_parse response reader Hok Hbody).
  split; [|reflexivity].
  simpl. rewrite Hend, Hlines, calls_of_lines_app. simpl.
  change (calls_of_lines JSON_parse (line :: after))
    with (trace (process_line JSON_parse line)
          ++ calls_of_lines JSON_parse after).
  rewrite Hline, app_nil_r. unfold callbacks.
  rewrite !filter_app.
  fold (callbacks (calls_of_lines JSON_parse before)).
  fold (callbacks (calls_of_lines JSON_parse after)).
  rewrite (callbacks_of_season_records JSON_parse before Hbefore).
  rewrite (callbacks_of_season_records JSON_parse after)
    by (rewrite Hafter; constructor).
  rewrite Hafter. reflexivity.
Qed.

Lemma final_statistics_after_season_records_witness :
  exists statistics,
    get_prop example_final_statistics "statistics" = inr statistics
    /\ trace (process_line example_parse ("data: " +:+ final_statistics_text))
       = [OnStatsUpdate statistics; OnComplete]
    /\ callbacks (trace (simulateSeasonsStream example_parse (inr two_seasons)))
       = map OnSeasonUpdate (events example_parse lines_before_final)
         ++ [OnStatsUpdate statistics; OnComplete]
    /\ outcome (simulateSeasonsStream example_parse (inr two_seasons))
       = inr tt.
Proof.
  apply (final_statistics_after_season_records example_parse two_seasons
           {| chunks := [ sse (season_text "1") +:+ sse (season_text "2");
                          sse final_statistics_text ];
              ending := EndOfStream |}
           lines_before_final [""; ""]%string
           ("data: " +:+ final_statistics_text) example_final_statistics).
  - reflexivity.
  - reflexivity.
  - reflexivity.
  - vm_compute. reflexivity.
  - vm_compute. reflexivity.
  - eexists. split; reflexivity.
  - vm_compute. repeat constructor.
  - vm_compute. reflexivity.
Defined.

(** C5. When [fetch] itself fails, or the response arrives with a non-ok
    status, [onError] is invoked exactly once, with the rejection reason
    or the HTTP error, and no other callback (nor anything else) is: no
    season record reaches the caller. The promise resolves. *)
Theorem failed_request_reports_one_error
    (JSON_parse : string -> Thrown + JSValue) (fetched : Thrown + Response) :
  match fetched with
  | inl _ => True
  | inr response => ok response = false
  end ->
  simulateSeasonsStream JSON_parse fetched
  = ([OnError
        match fetched with
        | inl reason => reason
        | inr response =>
            JSError "Error"
              ("HTTP error! status: " +:+ pretty (status response))
        end],
     inr tt).
Proof.
  destruct fetched as [reason|response]; intros H.
  - reflexivity.
  - unfold simulateSeasonsStream, mbind, Eff_bind, bind, lift, try_catch.
    simpl. rewrite H. reflexivity.
Qed.

Lemma failed_request_reports_one_error_witness :
  simulateSeasonsStream example_parse (inr not_found)
  = ([OnError (JSError "Error" ("HTTP error! status: " +:+ pretty 404))],
     inr tt).
Proof.
  apply (failed_request_reports_one_error example_parse (inr not_found)).
  reflexivity.
Defined.

(** C9. A malformed line never aborts the stream: a line that does not
    begin with [data: ], or whose remainder does not parse, invokes no
    callback and does not throw; the callbacks of the whole run are those
    of the lines before it followed by those of the lines after it, in
    this chunk and the later ones, and the run ends as the stream does. *)
Theorem malformed_line_is_skipped
    (JSON_parse : string -> Thrown + JSValue)
    (response : Response) (reader : Reader)
    (before after : list string) (line : string) :
  ok response = true ->
  body response = Some reader ->
  stream_lines (chunks reader) = before ++ line :: after ->
  startsWith line "data: " = false
  \/ (exists error, JSON_parse (slice line 6) = inl error) ->
  callbacks (trace (process_line JSON_parse line)) = []
  /\ outcome (process_line JSON_parse line) = inr tt
  /\ callbacks (trace (simulateSeasonsStream JSON_parse (inr response)))
     = callbacks (calls_of_lines JSON_parse before)
       ++ callbacks (calls_of_lines JSON_parse after)
       ++ call_of_ending (ending reader).
Proof.
  intros Hok Hbody Hlines Hbad.
  assert (Hnone : event_of JSON_parse line = None).
  { unfold event_of. destruct Hbad as [->|[error ->]]; [reflexivity|].
    destruct (startsWith line "data: "); reflexivity. }
  pose proof (process_line_malformed JSON_parse line Hnone) as Hline.
  split; [exact Hline|]. split; [apply process_line_outcome|].
  rewrite (simulateSeasonsStream_run JSON_parse response reader Hok Hbody).
  simpl. rewrite Hlines, calls_of_lines_app.
  change (calls_of_lines JSON_parse (line :: after))
    with (trace (process_line JSON_parse line)
          ++ calls_of_lines JSON_parse after).
  unfold callbacks in *. rewrite !filter_app, Hline, <- app_assoc. simpl.
  destruct (ending reader); reflexivity.
Qed.

Lemma malformed_line_is_skipped_witness :
  callbacks (trace (process_line example_parse "data: {")) = []
  /\ outcome (process_line example_parse "data: {") = inr tt
  /\ callbacks (trace (simulateSeasonsStream example_parse
                         (inr with_malformed_line)))
     = callbacks (calls_of_lines example_parse
                    ["data: " +:+ season_text "1"; ""; ""]%string)
       ++ callbacks (calls_of_lines example_parse
                       ["event: ping"; "data: " +:+ season_text "2"; ""; "";
                        "data: " +:+ final_statistics_text; ""; ""]%string)
       ++ call_of_ending EndOfStream.
Proof.
  apply (malformed_line_is_skipped example_parse with_malformed_line
           {| chunks :=
                [ sse (season_text "1");
                  "data: {" +:+ newline +:+ "event: ping" +:+ newline
                  +:+ sse (season_text "2");
                  sse final_statistics_text ];
              ending := EndOfStream |}
           ["data: " +:+ season_text "1"; ""; ""]%string
           ["event: ping"; "data: " +:+ season_text "2"; ""; "";
            "data: " +:+ final_statistics_text; ""; ""]%string
           "data: {").
  - reflexivity.
  - reflexivity.
  - vm_compute. reflexivity.
  - right. eexists. vm_compute. reflexivity.
Defined.

(** C10. [healthCheck] always returns a boolean and never throws: [true]
    if and only if the request succeeds and the [status] member of the
    response body is the string [healthy]; [false] for every other body
    and for every failure of the request. *)
Theorem healthCheck_total (got : Thrown + AxiosResponse) :
  exists healthy : bool,
    healthCheck got = ([], inr healthy)
    /\ (healthy = true
        <-> exists response,
              got = inr response
              /\ get_prop (data response) "status"
                 = inr (JSString "healthy")).
Proof.
  destruct got as [reason|[body]].
  - exists false. split; [reflexivity|]. split; [discriminate|].
    intros (response & H & _). discriminate.
  - unfold healthCheck, mbind, mret, Eff_bind, Eff_ret, bind, ret, lift,
      try_catch. simpl.
    destruct (get_prop body "status") as [e|status] eqn:Hstatus; simpl.
    + exists false. split; [reflexivity|]. split; [discriminate|].
      intros (response & [= <-] & H). simpl in H. congruence.
    + exists (strict_eq_string status "healthy"). split; [reflexivity|].
      split.
      * intros Heq. exists {| data := body |}. split; [reflexivity|].
        simpl. rewrite Hstatus. f_equal.
        destruct status; try discriminate Heq. simpl in Heq.
        apply String.eqb_eq in Heq. subst. reflexivity.
      * intros (response & [= <-] & H). simpl in H.
        rewrite Hstatus in H. injection H as ->. reflexivity.
Qed.

Example healthCheck_degraded :
  healthCheck
    (inr {| data := JSObject [("status"%string, JSString "degraded")] |})
  = ([], inr false).
Proof. reflexivity. Qed.

Example healthCheck_empty_body :
  healthCheck (inr {| data := JSNull |}) = ([], inr false).
Proof. reflexivity. Qed.

(** ** The chart transform *)

Section ChartFacts.

Variable Number_toString : float -> string.

Local Abbreviation key_of := (seriesKey Number_toString).
Local Abbreviation add := (addSeason Number_toString).

Lemma seriesKey_not_game s : key_of s <> "game"%string.
Proof. unfold seriesKey. simpl. discriminate. Qed.

Lemma gameNumbers_lookup i :
  i < 82 -> gameNumbers !! i = Some (Number_of_nat (i + 1)).
Proof.
  intros Hi. unfold gameNumbers.
  change (map (fun i => Number_of_nat (i + 1)) (seq 0 82))
    with ((fun i => Number_of_nat (i + 1)) <$> seq 0 82).
  rewrite list_lookup_fmap, lookup_seq_lt by exact Hi. reflexivity.
Qed.

Lemma chartData_lookup seasons i :
  i < 82 ->
  chartData Number_toString seasons !! i
  = Some (dataPointFor Number_toString seasons (Number_of_nat (i + 1))).
Proof.
  intros Hi. unfold chartData.
  change (map (dataPointFor Number_toString seasons) gameNumbers)
    with (dataPointFor Number_toString seasons <$> gameNumbers).
  rewrite list_lookup_fmap, gameNumbers_lookup by exact Hi. reflexivity.
Qed.

Lemma findGame_is_Some s gameNum :
  is_Some (findGame s gameNum)
  <-> exists g, g ∈ games s /\ (game g =? gameNum)%float = true.
Proof.
  unfold findGame. split.
  - intros [g Hg]. apply find_some in Hg as [Hin Heq].
    exists g. split; [apply list_elem_of_In, Hin|exact Heq].
  - intros (g & Hin & Heq).
    destruct (find _ (games s)) as [g'|] eqn:Hfind; [eauto|].
    apply list_elem_of_In in Hin.
    pose proof (find_none _ _ Hfind g Hin) as Hne. simpl in Hne. congruence.
Qed.

(** A member that no season with a matching game writes is left as it
    was. *)
Lemma fold_addSeason_other gameNum key seasons : forall acc : DataPoint,
  (forall s, s ∈ seasons -> is_Some (findGame s gameNum) -> key_of s <> key) ->
  fold_left (add gameNum) seasons acc !! key = acc !! key.
Proof.
  induction seasons as [|s seasons IH]; intros acc Hother; [reflexivity|].
  simpl. rewrite IH.
  - unfold addSeason. destruct (findGame s gameNum) as [g|] eqn:Hg;
      [|reflexivity].
    apply lookup_insert_ne, Hother; [left|eauto].
  - intros s' Hin. apply Hother. right. exact Hin.
Qed.

(** A member, once present, stays. *)
Lemma fold_addSeason_keeps gameNum key seasons : forall acc : DataPoint,
  is_Some (acc !! key) ->
  is_Some (fold_left (add gameNum) seasons acc !! key).
Proof.
  induction seasons as [|s seasons IH]; intros acc Hacc; [exact Hacc|].
  simpl. apply IH. unfold addSeason.
  destruct (findGame s gameNum) as [g|]; [|exact Hacc].
  destruct (decide (key_of s = key)) as [<-|Hne].
  - rewrite lookup_insert_eq. eauto.
  - rewrite lookup_insert_ne by exact Hne. exact Hacc.
Qed.

(** A season with a matching game leaves a member under its key. *)
Lemma fold_addSeason_present gameNum s seasons : forall acc : DataPoint,
  s ∈ seasons -> is_Some (findGame s gameNum) ->
  is_Some (fold_left (add gameNum) seasons acc !! key_of s).
Proof.
  induction seasons as [|s0 seasons IH]; intros acc Hin Hfound.
  - apply elem_of_nil in Hin. contradiction.
  - simpl. apply elem_of_cons in Hin as [<-|Hin]; [|apply IH; assumption].
    apply fold_addSeason_keeps. unfold addSeason.
    destruct Hfound as [g ->]. rewrite lookup_insert_eq. eauto.
Qed.

(** Every member was there at the start or is the expected wins of a
    matching game of a season with that key. *)
Lemma fold_addSeason_origin gameNum key v seasons : forall acc : DataPoint,
  fold_left (add gameNum) seasons acc !! key = Some v ->
  acc !! key = Some v
  \/ exists s g, s ∈ seasons /\ key_of s = key
                 /\ findGame s gameNum = Some g /\ v = expected_wins g.
Proof.
  induction seasons as [|s seasons IH]; intros acc Hv; [left; exact Hv|].
  simpl in Hv. apply IH in Hv as [Hv|(s' & g & Hin & Hkey & Hg & ->)].
  - unfold addSeason in Hv.
    destruct (findGame s gameNum) as [g|] eqn:Hg; [|left; exact Hv].
    apply lookup_insert_Some in Hv as [[Hkey <-]|[_ Hv]]; [|left; exact Hv].
    right. exists s, g. repeat split; [left|exact Hkey|exact Hg].
  - right. exists s', g. repeat split; [right; exact Hin|exact Hkey|exact Hg].
Qed.

(** When all seasons with the key agree on the matching game, the member
    under the key is that game's expected wins. *)
Lemma fold_addSeason_unique gameNum key found seasons : forall acc : DataPoint,
  (forall s, s ∈ seasons -> key_of s = key -> findGame s gameNum = found) ->
  key ∈ map key_of seasons ->
  fold_left (add gameNum) seasons acc !! key
  = match found with
    | Some g => Some (expected_wins g)
    | None => acc !! key
    end.
Proof.
  induction seasons as [|s seasons IH]; intros acc Hagree Hin.
  - apply elem_of_nil in Hin. contradiction.
  - simpl.
    assert (Hrest : forall s', s' ∈ seasons -> key_of s' = key ->
                               findGame s' gameNum = found)
      by (intros s' Hs'; apply Hagree; right; exact Hs').
    destruct (decide (key_of s = key)) as [Hkey|Hkey].
    + pose proof (Hagree s ltac:(left) Hkey) as Hs.
      assert (Hhere : add gameNum acc s !! key
                      = match found with
                        | Some g => Some (expected_wins g)
                        | None => acc !! key
                        end).
      { unfold addSeason. rewrite Hs. destruct found as [g|]; [|reflexivity].
        rewrite Hkey. apply lookup_insert_eq. }
      destruct (decide (key ∈ map key_of seasons)) as [Hmore|Hnomore].
      * rewrite (IH _ Hrest Hmore). destruct found; [reflexivity|].
        unfold addSeason. rewrite Hs. reflexivity.
      * rewrite fold_addSeason_other; [exact Hhere|].
        intros s' Hs' _ Heq. apply Hnomore.
        apply list_elem_of_In, in_map_iff. exists s'.
        split; [exact Heq|apply list_elem_of_In, Hs'].
    + simpl in Hin. apply elem_of_cons in Hin as [Hin|Hin]; [congruence|].
      rewrite (IH _ Hrest Hin). destruct found; [reflexivity|].
      unfold addSeason. destruct (findGame s gameNum); [|reflexivity].
      apply lookup_insert_ne, Hkey.
Qed.

Lemma dataPointFor_game seasons gameNum :
  dataPointFor Number_toString seasons gameNum !! "game"%string
  = Some gameNum.
Proof.
  unfold dataPointFor. rewrite fold_addSeason_other.
  - apply lookup_singleton_eq.
  - intros s _ _. apply seriesKey_not_game.
Qed.

End ChartFacts.

(** Games 1 through 82 are in increasing order. *)
Lemma gameNumbers_increasing :
  forallb (fun i => (Number_of_nat (i + 1) <? Number_of_nat (i + 2))%float)
    (seq 0 81) = true.
Proof. vm_compute. reflexivity. Qed.

Example gameNumbers_ends :
  gameNumbers !! 0 = Some 1%float /\ gameNumbers !! 81 = Some 82%float
  /\ length gameNumbers = 82.
Proof. repeat split; vm_compute; reflexivity. Qed.

Example chartData_example :
  (chartData example_Number_toString example_seasons !! 0,
   chartData example_Number_toString example_seasons !! 1,
   chartData example_Number_toString example_seasons !! 2)
  = (Some (<["Season 2"%string := 0.75%float]>
             (<["Season 1"%string := 0.5%float]>
                {["game"%string := 1%float]})),
     Some (<["Season 1"%string := 1.25%float]> {["game"%string := 2%float]}),
     Some {["game"%string := 3%float]}).
Proof. vm_compute. reflexivity. Qed.

(** C7, as the code has it. For every list of seasons the chart transform
    produces exactly 82 data points; the point at index i has game number
    i + 1, and the game numbers increase. The point at game number g
    carries a value under the series key of season s if and only if a
    season with that series key contains a game record whose [game]
    member equals g; every value carried is the expected wins of the
    first such game record of a season with the key; and for a season
    whose series key no other season of the list has, the value is the
    expected wins of its first game record numbered g, and there is none
    when it has no such record. *)
Theorem chartData_one_point_per_game
    (Number_toString : float -> string) (seasons : list SeasonData)
    (i : nat) :
  i < 82 ->
  length (chartData Number_toString seasons) = 82
  /\ exists point,
       chartData Number_toString seasons !! i = Some point
       /\ point !! "game"%string = Some (Number_of_nat (i + 1))
       /\ (i + 1 < 82 ->
           (Number_of_nat (i + 1) <? Number_of_nat (i + 2))%float = true)
       /\ (forall s, s ∈ seasons ->
             is_Some (point !! seriesKey Number_toString s)
             <-> exists s' g,
                   s' ∈ seasons
                   /\ seriesKey Number_toString s'
                      = seriesKey Number_toString s
                   /\ g ∈ games s'
                   /\ (game g =? Number_of_nat (i + 1))%float = true)
       /\ (forall key v,
             key <> "game"%string -> point !! key = Some v ->
             exists s g,
               s ∈ seasons /\ seriesKey Number_toString s = key
               /\ findGame s (Number_of_nat (i + 1)) = Some g
               /\ v = expected_wins g)
       /\ (forall s, s ∈ seasons ->
             (forall s', s' ∈ seasons ->
                seriesKey Number_toString s' = seriesKey Number_toString s ->
                s' = s) ->
             point !! seriesKey Number_toString s
             = expected_wins <$> findGame s (Number_of_nat (i + 1))).
Proof.
  intros Hi. split.
  { unfold chartData, gameNumbers.
    rewrite !length_map, length_seq. reflexivity. }
  exists (dataPointFor Number_toString seasons (Number_of_nat (i + 1))).
  split; [apply chartData_lookup, Hi|].
  split; [apply dataPointFor_game|].
  split; [|split; [|split]].
  - intros Hnext.
    pose proof gameNumbers_increasing as Hinc.
    rewrite forallb_forall in Hinc. apply Hinc, in_seq. lia.
  - intros s Hs. unfold dataPointFor. split.
    + intros [v Hv].
      apply fold_addSeason_origin in Hv as [Hv|(s' & g & Hin & Hkey & Hg & _)].
      * rewrite lookup_singleton_ne in Hv; [discriminate|].
        intros Heq. symmetry in Heq. revert Heq. apply seriesKey_not_game.
      * assert (Hsome : is_Some (findGame s' (Number_of_nat (i + 1)))) by eauto.
        apply findGame_is_Some in Hsome as (g' & Hg' & Heq).
        exists s', g'. auto.
    + intros (s' & g & Hin & Hkey & Hg & Heq). rewrite <- Hkey.
      apply fold_addSeason_present; [exact Hin|].
      apply findGame_is_Some. eauto.
  - intros key v Hkey Hv. unfold dataPointFor in Hv.
    apply fold_addSeason_origin in Hv as [Hv|Hv]; [|exact Hv].
    rewrite lookup_singleton_ne in Hv; [discriminate|]. congruence.
  - intros s Hs Hown. unfold dataPointFor.
    rewrite (fold_addSeason_unique Number_toString _ _
               (findGame s (Number_of_nat (i + 1)))).
    + destruct (findGame s (Number_of_nat (i + 1))); [reflexivity|].
      apply lookup_singleton_ne. intros Heq. symmetry in Heq. revert Heq.
      apply seriesKey_not_game.
    + intros s' Hs' Hkey. rewrite (Hown s' Hs' Hkey). reflexivity.
    + apply list_elem_of_In, in_map, list_elem_of_In, Hs.
Qed.

Lemma chartData_one_point_per_game_witness :
  length (chartData example_Number_toString example_seasons) = 82
  /\ exists point,
       chartData example_Number_toString example_seasons !! 0 = Some point
       /\ point !! "game"%string = Some (Number_of_nat (0 + 1))
       /\ (0 + 1 < 82 ->
           (Number_of_nat (0 + 1) <? Number_of_nat (0 + 2))%float = true)
       /\ (forall s, s ∈ example_seasons ->
             is_Some (point !! seriesKey example_Number_toString s)
             <-> exists s' g,
                   s' ∈ example_seasons
                   /\ seriesKey example_Number_toString s'
                      = seriesKey example_Number_toString s
                   /\ g ∈ games s'
                   /\ (game g =? Number_of_nat (0 + 1))%float = true)
       /\ (forall key v,
             key <> "game"%string -> point !! key = Some v ->
             exists s g,
               s ∈ example_seasons
               /\ seriesKey example_Number_toString s = key
               /\ findGame s (Number_of_nat (0 + 1)) = Some g
               /\ v = expected_wins g)
       /\ (forall s, s ∈ example_seasons ->
             (forall s', s' ∈ example_seasons ->
                seriesKey example_Number_toString s'
                = seriesKey example_Number_toString s ->
                s' = s) ->
             point !! seriesKey example_Number_toString s
             = expected_wins <$> findGame s (Number_of_nat (0 + 1))).
Proof.
  apply (chartData_one_point_per_game example_Number_toString
           example_seasons 0).
  lia.
Defined.

(** The claim as stated fails when a season number comes twice: the
    first season of [example_season_twice] has a record of game 1, with
    expected wins 0.5, and the point at game 1 carries 0.75 under its
    key, the value of the second season. *)
Lemma season_number_twice_counterexample :
  exists s g point,
    example_season_twice !! 0 = Some s
    /\ g ∈ games s
    /\ (game g =? 1)%float = true
    /\ expected_wins g = 0.5%float
    /\ chartData example_Number_toString example_season_twice !! 0
       = Some point
    /\ point !! "game"%string = Some 1%float
    /\ point !! seriesKey example_Number_toString s = Some 0.75%float.
Proof.
  eexists _, (example_game 1 0.5), _.
  split; [reflexivity|]. split; [apply elem_of_cons; left; reflexivity|].
  split; [reflexivity|]. split; [reflexivity|].
  split; [reflexivity|]. split; vm_compute; reflexivity.
Qed.

(** * Further properties of the code *)

(** ** Lines and chunks *)

Lemma split_lines_nonempty s : split_lines s <> [].
Proof.
  destruct s as [|c s]; simpl; [discriminate|].
  destruct (Ascii.eqb c "010"); [discriminate|].
  destruct (split_lines s); discriminate.
Qed.

(** Splitting distributes over a line break. *)
Lemma split_lines_app_newline a b :
  split_lines (a +:+ newline +:+ b) = split_lines a ++ split_lines b.
Proof.
  induction a as [|c a IH]; [reflexivity|].
  change (String c a +:+ newline +:+ b)
    with (String c (a +:+ newline +:+ b)).
  simpl. destruct (Ascii.eqb c "010"); [rewrite IH; reflexivity|].
  rewrite IH. pose proof (split_lines_nonempty a) as Hne.
  destruct (split_lines a); [contradiction|reflexivity].
Qed.

Lemma split_lines_no_newline s : no_newline s = true -> split_lines s = [s].
Proof.
  induction s as [|c s IH]; [reflexivity|]. simpl.
  destruct (Ascii.eqb c "010"); simpl; [discriminate|].
  intros Hs. rewrite (IH Hs). reflexivity.
Qed.

Lemma no_newline_app a b :
  no_newline a = true -> no_newline b = true -> no_newline (a +:+ b) = true.
Proof.
  induction a as [|c a IH]; simpl; [auto|].
  intros [Hc Ha]%andb_prop Hb. rewrite Hc, (IH Ha Hb). reflexivity.
Qed.

(** A response that is not ok: one [onError] with the HTTP error. *)
Lemma not_ok_response_run
    (JSON_parse : string -> Thrown + JSValue) (response : Response) :
  ok response = false ->
  simulateSeasonsStream JSON_parse (inr response)
  = ([OnError (JSError "Error"
                 ("HTTP error! status: " +:+ pretty (status response)))],
     inr tt).
Proof.
  intros Hok.
  unfold simulateSeasonsStream, mbind, Eff_bind, bind, lift, try_catch.
  simpl. rewrite Hok. reflexivity.
Qed.

(** A response that is ok but has no body: one [onError]. *)
Lemma no_body_response_run
    (JSON_parse : string -> Thrown + JSValue) (response : Response) :
  ok response = true -> body response = None ->
  simulateSeasonsStream JSON_parse (inr response)
  = ([OnError (JSError "Error" "No response body")], inr tt).
Proof.
  intros Hok Hbody.
  unfold simulateSeasonsStream, mbind, mret, Eff_bind, Eff_ret, bind, ret,
    lift, throw, try_catch, call.
  simpl. rewrite Hok, Hbody. reflexivity.
Qed.

Lemma calls_of_lines_filter_OnError
    (JSON_parse : string -> Thrown + JSValue) (lines : list string) :
  filter is_OnError (calls_of_lines JSON_parse lines) = [].
Proof.
  pose proof (calls_of_lines_no_OnError JSON_parse lines) as Hno.
  induction (calls_of_lines JSON_parse lines) as [|c t IH]; [reflexivity|].
  simpl in Hno. apply andb_prop in Hno as [Hc Hno].
  apply negb_true_iff in Hc. rewrite filter_cons.
  destruct (decide (is_OnError c)) as [Hd|Hd]; [|apply IH, Hno].
  rewrite Hc in Hd. contradiction.
Qed.

Section StreamExtras.

Variable JSON_parse : string -> Thrown + JSValue.

(** An empty line makes no call. *)
Lemma calls_of_empty_line lines :
  calls_of_lines JSON_parse (""%string :: lines)
  = calls_of_lines JSON_parse lines.
Proof. reflexivity. Qed.

End StreamExtras.

Section ThrowingCallbacks.

Variable JSON_parse : string -> Thrown + JSValue.
Variable throws : list Call -> Call -> option Thrown.

Local Ltac run_unfold :=
  unfold mbind, mret, Run_bind, Run_ret, run_bind, run_ret, run_lift,
    run_throw, run_try_catch, invoke, trace, outcome.

Local Ltac case_throws :=
  repeat match goal with
         | |- context [throws ?past ?c] => destruct (throws past c); cbn
         end.

(** Whatever the callbacks do, processing an event does not call
    [onError]. *)
Lemma Throwing_dispatch_no_OnError data past :
  filter is_OnError (trace (Throwing.dispatch throws data past)) = [].
Proof.
  unfold Throwing.dispatch. run_unfold.
  destruct data; try reflexivity. cbn [get_prop].
  destruct (strict_eq_string (lookup_prop "type" props) "final_statistics");
    [cbn; case_throws; reflexivity|].
  destruct (strict_eq_string (lookup_prop "type" props) "cancelled");
    [cbn; case_throws; reflexivity|].
  destruct (truthy (lookup_prop "season" props)) eqn:Hseason; cbn.
  - destruct (truthy (lookup_prop "games" props)); cbn; case_throws;
      reflexivity.
  - rewrite Hseason. reflexivity.
Qed.

(** A line never throws, also when its callbacks do: the [try] block
    catches what they throw. *)
Lemma Throwing_process_line_run line past :
  outcome (Throwing.process_line JSON_parse throws line past) = inr tt
  /\ filter is_OnError
       (trace (Throwing.process_line JSON_parse throws line past)) = [].
Proof.
  unfold Throwing.process_line.
  destruct (startsWith line "data: "); [|split; reflexivity].
  pose proof (fun data => Throwing_dispatch_no_OnError data past) as Hno.
  unfold trace in Hno.
  run_unfold. destruct (JSON_parse (slice line 6)) as [e|data];
    [split; reflexivity|]. cbn. rewrite app_nil_r.
  specialize (Hno data).
  destruct (Throwing.dispatch throws data past) as [t [e|[]]]; cbn in *.
  - split; [reflexivity|]. rewrite filter_app, Hno. reflexivity.
  - split; [reflexivity|exact Hno].
Qed.

Lemma Throwing_for_each_line_run lines : forall past,
  outcome (Throwing.for_each_line JSON_parse throws lines past) = inr tt
  /\ filter is_OnError
       (trace (Throwing.for_each_line JSON_parse throws lines past)) = [].
Proof.
  induction lines as [|line lines IH]; intros past; [split; reflexivity|].
  cbn [Throwing.for_each_line]. run_unfold.
  destruct (Throwing_process_line_run line past) as [Ho Ht].
  unfold outcome, trace in Ho, Ht.
  destruct (Throwing.process_line JSON_parse throws line past) as [t r].
  cbn in Ho, Ht. subst r.
  destruct (IH (past ++ t)) as [Ho' Ht']. unfold outcome, trace in Ho', Ht'.
  destruct (Throwing.for_each_line JSON_parse throws lines (past ++ t))
    as [t' r'].
  cbn in *. split; [exact Ho'|]. rewrite filter_app, Ht, Ht'. reflexivity.
Qed.

Lemma Throwing_read_loop_run values last : forall past,
  outcome (Throwing.read_loop JSON_parse throws values last past)
  = match last with
    | EndOfStream => inr tt
    | ReadFailure reason => inl reason
    end
  /\ filter is_OnError
       (trace (Throwing.read_loop JSON_parse throws values last past)) = [].
Proof.
  induction values as [|value values IH]; intros past.
  - destruct last; split; reflexivity.
  - cbn [Throwing.read_loop]. unfold Throwing.process_chunk. run_unfold.
    destruct (Throwing_for_each_line_run (split_lines value) past)
      as [Ho Ht].
    unfold outcome, trace in Ho, Ht.
    destruct (Throwing.for_each_line JSON_parse throws (split_lines value)
                past) as [t r].
    cbn in Ho, Ht. subst r.
    destruct (IH (past ++ t)) as [Ho' Ht']. unfold outcome, trace in Ho', Ht'.
    destruct (Throwing.read_loop JSON_parse throws values last (past ++ t))
      as [t' r'].
    cbn in *. split; [exact Ho'|]. rewrite filter_app, Ht, Ht'. reflexivity.
Qed.


(** With callbacks that return normally, the run is the one of the
    consumer of [Api]. *)
Lemma never_dispatch data past :
  Throwing.dispatch Throwing.never data past = dispatch data.
Proof.
  unfold Throwing.dispatch, dispatch, Throwing.never. run_unfold.
  unfold Eff_bind, Eff_ret, bind, ret, lift, call.
  destruct data; try reflexivity. cbn [get_prop].
  destruct (strict_eq_string (lookup_prop "type" props) "final_statistics");
    [reflexivity|].
  destruct (strict_eq_string (lookup_prop "type" props) "cancelled");
    [reflexivity|].
  destruct (truthy (lookup_prop "season" props)) eqn:Hseason; cbn.
  - destruct (truthy (lookup_prop "games" props)); reflexivity.
  - rewrite Hseason. reflexivity.
Qed.

Lemma never_process_line line past :
  Throwing.process_line JSON_parse Throwing.never line past
  = process_line JSON_parse line.
Proof.
  unfold Throwing.process_line, process_line.
  destruct (startsWith line "data: "); [|reflexivity].
  run_unfold. unfold Eff_bind, Eff_ret, bind, ret, lift, call, try_catch.
  destruct (JSON_parse (slice line 6)) as [e|data]; [reflexivity|].
  cbn -[dispatch Throwing.dispatch]. rewrite app_nil_r, never_dispatch.
  destruct (dispatch data) as [t [e|[]]]; reflexivity.
Qed.

Lemma never_for_each_line lines : forall past,
  Throwing.for_each_line JSON_parse Throwing.never lines past
  = for_each_line JSON_parse lines.
Proof.
  induction lines as [|line lines IH]; intros past; [reflexivity|].
  cbn [Throwing.for_each_line for_each_line]. run_unfold.
  unfold Eff_bind, bind. rewrite never_process_line.
  destruct (process_line JSON_parse line) as [t [e|[]]]; [reflexivity|].
  rewrite IH. reflexivity.
Qed.

Lemma never_read_loop values last : forall past,
  Throwing.read_loop JSON_parse Throwing.never values last past
  = read_loop JSON_parse values last.
Proof.
  induction values as [|value values IH]; intros past.
  - destruct last; reflexivity.
  - cbn [Throwing.read_loop read_loop].
    unfold Throwing.process_chunk, process_chunk. run_unfold.
    unfold Eff_bind, bind. rewrite never_for_each_line.
    destruct (for_each_line JSON_parse (split_lines value)) as [t [e|[]]];
      [reflexivity|].
    rewrite IH. reflexivity.
Qed.

Lemma never_simulateSeasonsStream fetched past :
  Throwing.simulateSeasonsStream JSON_parse Throwing.never fetched past
  = simulateSeasonsStream JSON_parse fetched.
Proof.
  unfold Throwing.simulateSeasonsStream, simulateSeasonsStream.
  run_unfold.
  unfold Eff_bind, Eff_ret, bind, ret, lift, call, throw, try_catch.
  destruct fetched as [reason|response]; [reflexivity|].
  destruct (ok response); [|reflexivity]. cbn.
  destruct (body response) as [reader|]; [|reflexivity]. cbn.
  rewrite never_read_loop.
  destruct (read_loop JSON_parse (chunks reader) (ending reader))
    as [t [e|[]]]; reflexivity.
Qed.

(** The promise of [simulateSeasonsStream] rejects only when the
    [onError] callback itself throws, and then with what it threw:
    whatever the callbacks do, return or throw, [onError] is called at
    most once and is then the last call of the run, and the promise
    resolves when it was not called or returned. What the other
    callbacks throw is caught inside the loop. With callbacks that
    return normally the run is the one of the consumer above, whose
    promise always resolves. *)
Theorem promise_rejects_only_when_onError_throws
    (fetched : Thrown + Response) :
  ((filter is_OnError
      (trace (Throwing.simulateSeasonsStream JSON_parse throws fetched []))
    = []
    /\ outcome (Throwing.simulateSeasonsStream JSON_parse throws fetched [])
       = inr tt)
   \/ exists calls err,
        trace (Throwing.simulateSeasonsStream JSON_parse throws fetched [])
        = calls ++ [OnError err]
        /\ filter is_OnError calls = []
        /\ outcome (Throwing.simulateSeasonsStream JSON_parse throws fetched [])
           = match throws calls (OnError err) with
             | Some e => inl e
             | None => inr tt
             end)
  /\ Throwing.simulateSeasonsStream JSON_parse Throwing.never fetched []
     = simulateSeasonsStream JSON_parse fetched.
Proof.
  split; [|apply never_simulateSeasonsStream].
  unfold Throwing.simulateSeasonsStream. run_unfold.
  destruct fetched as [reason|response].
  { right. exists [], reason. cbn. auto. }
  cbn. destruct (ok response); cbn.
  2:{ right. eexists [], _. cbn. auto. }
  destruct (body response) as [reader|]; cbn.
  2:{ right. eexists [], _. cbn. auto. }
  destruct (Throwing_read_loop_run (chunks reader) (ending reader) [])
    as [Ho Ht].
  unfold outcome, trace in Ho, Ht.
  destruct (Throwing.read_loop JSON_parse throws (chunks reader)
              (ending reader) []) as [t r].
  cbn in Ho, Ht. subst r.
  destruct (ending reader) as [|reason]; cbn.
  - left. auto.
  - right. exists t, reason. auto.
Qed.

End ThrowingCallbacks.

(** An [onError] that throws makes the promise reject with what it
    threw. *)
Example onError_that_throws_rejects :
  Throwing.simulateSeasonsStream example_parse Throwing.onError_throws
    (inr not_found) []
  = ([OnError (JSError "Error" "HTTP error! status: 404")],
     inl (JSError "TypeError" "Cannot read properties of null")).
Proof. vm_compute. reflexivity. Qed.

(** An [onStatsUpdate] that throws is caught by the [try] block of the
    line: [onComplete] is skipped, the error is logged, and the promise
    resolves. *)
Example onStatsUpdate_that_throws_is_caught :
  Throwing.simulateSeasonsStream example_parse Throwing.onStatsUpdate_throws
    (inr two_seasons) []
  = ([ OnSeasonUpdate (example_season 1); OnSeasonUpdate (example_season 2);
       OnStatsUpdate
         (JSObject [("average_expected_wins"%string, JSNumber 41)]);
       ConsoleError "Error parsing stream data:"
         (JSError "Error" "render failed") ],
     inr tt).
Proof. vm_compute. reflexivity. Qed.

Section StreamEvents.

Variable JSON_parse : string -> Thrown + JSValue.

(** [onError] is called exactly for a failure of the transport: the
    request is rejected, the status is not ok, the body is missing, or a
    read fails. Nothing the stream carries makes it called. *)
Theorem onError_only_for_transport_failures
    (fetched : Thrown + Response) (err : Thrown) :
  In (OnError err) (trace (simulateSeasonsStream JSON_parse fetched))
  <-> fetched = inl err
      \/ (exists response,
            fetched = inr response
            /\ ((ok response = false
                 /\ err = JSError "Error"
                            ("HTTP error! status: "
                             +:+ pretty (status response)))
                \/ (ok response = true /\ body response = None
                    /\ err = JSError "Error" "No response body")
                \/ (ok response = true
                    /\ exists reader,
                         body response = Some reader
                         /\ ending reader = ReadFailure err))).
Proof.
  assert (Hlines : forall lines,
             ~ In (OnError err) (calls_of_lines JSON_parse lines)).
  { intros lines Hin.
    pose proof (calls_of_lines_no_OnError JSON_parse lines) as Hno.
    rewrite forallb_forall in Hno. specialize (Hno _ Hin). discriminate. }
  destruct fetched as [reason|response].
  - simpl. split.
    + intros [[= ->]|[]]. left. reflexivity.
    + intros [[= ->]|(response & [=] & _)]. left. reflexivity.
  - destruct (ok response) eqn:Hok.
    + destruct (body response) as [reader|] eqn:Hbody.
      * rewrite (simulateSeasonsStream_run JSON_parse response reader Hok Hbody).
        simpl. rewrite in_app_iff. split.
        -- intros [Hin|Hin]; [elim (Hlines _ Hin)|].
           destruct (ending reader) as [|reason] eqn:Hend; simpl in Hin;
             [contradiction|].
           destruct Hin as [[= ->]|[]].
           right. exists response. split; [reflexivity|].
           right. right. split; [exact Hok|]. exists reader. auto.
        -- intros [[=]|(r & [= <-] & [[Hf _]|[(_ & Hb & _)|(_ & rd & Hb & He)]])];
             try congruence.
           assert (rd = reader) by congruence. subst rd. rewrite He.
           right. simpl. left. reflexivity.
      * rewrite (no_body_response_run JSON_parse response Hok Hbody). simpl.
        split.
        -- intros [[= <-]|[]]. right. exists response.
           split; [reflexivity|]. right. left. auto.
        -- intros [[=]|(r & [= <-] & [[Hf _]|[(_ & _ & ->)|(_ & rd & Hb & _)]])];
             try congruence. left. reflexivity.
    + rewrite (not_ok_response_run JSON_parse response Hok). simpl. split.
      * intros [[= <-]|[]]. right. exists response.
        split; [reflexivity|]. left. auto.
      * intros [[=]|(r & [= <-] & [[_ ->]|[(Ht & _)|(Ht & _)]])];
          try congruence. left. reflexivity.
Qed.

(** When a read fails in the middle of a stream, what was received stands:
    the calls of the lines already read are made, every season record
    among them reaches [onSeasonUpdate], and then [onError] is called
    with the reason, as the last call. *)
Theorem read_failure_keeps_partial_output
    (response : Response) (reader : Reader) (reason : Thrown) :
  ok response = true ->
  body response = Some reader ->
  ending reader = ReadFailure reason ->
  trace (simulateSeasonsStream JSON_parse (inr response))
  = calls_of_lines JSON_parse (stream_lines (chunks reader))
    ++ [OnError reason]
  /\ season_updates (trace (simulateSeasonsStream JSON_parse (inr response)))
     = filter (fun d => is_season_record d)
         (events JSON_parse (stream_lines (chunks reader))).
Proof.
  intros Hok Hbody Hend.
  rewrite (simulateSeasonsStream_run JSON_parse response reader Hok Hbody).
  simpl. rewrite Hend. simpl. split; [reflexivity|].
  rewrite season_updates_app, calls_of_lines_season_updates. simpl.
  apply app_nil_r.
Qed.

(** What a line contributes to the [onComplete] calls. *)
Lemma process_line_OnComplete line :
  filter is_OnComplete (trace (process_line JSON_parse line))
  = match event_of JSON_parse line with
    | Some data => if is_terminal data then [OnComplete] else []
    | None => []
    end.
Proof.
  rewrite process_line_trace. unfold event_of.
  destruct (startsWith line "data: "); [|reflexivity].
  destruct (JSON_parse (slice line 6)) as [e|data]; [reflexivity|].
  destruct data; try reflexivity.
  rewrite dispatch_object. unfold is_terminal.
  destruct (strict_eq_string _ "final_statistics"); [reflexivity|].
  destruct (strict_eq_string _ "cancelled"); [reflexivity|].
  destruct (truthy (lookup_prop "season" props)
            && truthy (lookup_prop "games" props)); reflexivity.
Qed.

Lemma calls_of_lines_OnComplete lines :
  filter is_OnComplete (calls_of_lines JSON_parse lines)
  = map (fun _ => OnComplete)
      (filter (fun d => is_terminal d) (events JSON_parse lines)).
Proof.
  induction lines as [|line lines IH]; [reflexivity|].
  change (calls_of_lines JSON_parse (line :: lines))
    with (trace (process_line JSON_parse line)
          ++ calls_of_lines JSON_parse lines).
  rewrite filter_app, IH, process_line_OnComplete.
  unfold events. simpl.
  destruct (event_of JSON_parse line) as [data|]; [|reflexivity].
  rewrite filter_cons. destruct (is_terminal data); reflexivity.
Qed.

(** The consumer does not stop at a terminal event: it reads on to the
    end of the stream, and [onComplete] is called once for each
    [final_statistics] or [cancelled] event the stream carries. *)
Theorem onComplete_once_per_terminal_event
    (response : Response) (reader : Reader) :
  ok response = true ->
  body response = Some reader ->
  length (filter is_OnComplete
            (trace (simulateSeasonsStream JSON_parse (inr response))))
  = length (filter (fun d => is_terminal d)
              (events JSON_parse (stream_lines (chunks reader)))).
Proof.
  intros Hok Hbody.
  rewrite (simulateSeasonsStream_run JSON_parse response reader Hok Hbody).
  simpl. rewrite filter_app, calls_of_lines_OnComplete.
  assert (Hend : filter is_OnComplete (call_of_ending (ending reader)) = [])
    by (destruct (ending reader); reflexivity).
  rewrite Hend, app_nil_r, length_map. reflexivity.
Qed.

(** An event that is neither a terminal event nor a season record (null,
    a number, a string, an array, an object without a truthy [season] and
    [games]) invokes no callback and does not stop the stream. *)
Theorem other_events_are_ignored (line : string) (data : JSValue) :
  event_of JSON_parse line = Some data ->
  is_terminal data = false ->
  is_season_record data = false ->
  callbacks (trace (process_line JSON_parse line)) = []
  /\ outcome (process_line JSON_parse line) = inr tt.
Proof.
  intros Hev Hterm Hrec. split; [|apply process_line_outcome].
  rewrite process_line_trace. unfold event_of in Hev.
  destruct (startsWith line "data: "); [|reflexivity].
  destruct (JSON_parse (slice line 6)) as [e|d]; [discriminate|].
  injection Hev as ->.
  destruct data; try reflexivity.
  rewrite dispatch_object. simpl in Hterm, Hrec.
  apply orb_false_elim in Hterm as [Hfinal Hcancelled].
  rewrite Hfinal, Hcancelled in *. simpl in Hrec. rewrite Hrec.
  reflexivity.
Qed.

End StreamEvents.

Lemma split_lines_newline_end a :
  split_lines (a +:+ newline) = split_lines a ++ [""%string].
Proof.
  change (a +:+ newline) with (a +:+ newline +:+ "").
  apply split_lines_app_newline.
Qed.

Lemma slice_data_prefix text : slice ("data: " +:+ text) 6 = text.
Proof. destruct text; reflexivity. Qed.

Lemma startsWith_data_prefix text :
  startsWith ("data: " +:+ text) "data: " = true.
Proof.
  unfold startsWith. simpl.
  repeat (destruct (ascii_dec _ _) as [_|Hne]; [|now elim Hne]).
  destruct text; reflexivity.
Qed.

Lemma split_lines_sse text :
  no_newline text = true ->
  split_lines (sse text) = ["data: " +:+ text; ""; ""]%string.
Proof.
  intros Htext.
  change (sse text) with (("data: " +:+ text) +:+ newline +:+ newline).
  rewrite split_lines_app_newline, split_lines_no_newline by exact Htext.
  reflexivity.
Qed.

Lemma run_of_chunks
    (JSON_parse : string -> Thrown + JSValue) (code : nat)
    (values : list string) (last : StreamEnd) :
  simulateSeasonsStream JSON_parse
    (inr {| ok := true; status := code;
            body := Some {| chunks := values; ending := last |} |})
  = (calls_of_lines JSON_parse (stream_lines values) ++ call_of_ending last,
     inr tt).
Proof.
  exact (simulateSeasonsStream_run JSON_parse
           {| ok := true; status := code;
              body := Some {| chunks := values; ending := last |} |}
           {| chunks := values; ending := last |} eq_refl eq_refl).
Qed.

(** A chunk boundary that falls at the end of a line is invisible: the
    run makes the same calls, and ends the same way, as when the two
    chunks arrive as one. *)
Theorem chunk_boundary_at_line_end_is_invisible
    (JSON_parse : string -> Thrown + JSValue) (code : nat)
    (before after : list string) (a b : string) (last : StreamEnd) :
  simulateSeasonsStream JSON_parse
    (inr {| ok := true; status := code;
            body := Some {| chunks := before ++ [a +:+ newline; b] ++ after;
                            ending := last |} |})
  = simulateSeasonsStream JSON_parse
      (inr {| ok := true; status := code;
              body := Some {| chunks := before ++ [a +:+ newline +:+ b]
                                        ++ after;
                              ending := last |} |}).
Proof.
  rewrite !run_of_chunks. f_equal. f_equal. unfold stream_lines.
  rewrite !flat_map_app, !calls_of_lines_app. f_equal. f_equal.
  simpl. rewrite split_lines_newline_end, split_lines_app_newline.
  rewrite <- !app_assoc, !calls_of_lines_app. reflexivity.
Qed.

(** The consumer keeps nothing from one read to the next: an event whose
    text is cut by a chunk boundary is lost (no callback is invoked for
    either half), although the same event arriving in one chunk reaches
    [onSeasonUpdate]. *)
Theorem event_cut_across_reads_is_lost
    (JSON_parse : string -> Thrown + JSValue) (head tail : string) :
  no_newline head = true ->
  no_newline tail = true ->
  (exists error, JSON_parse head = inl error) ->
  startsWith tail "data: " = false ->
  callbacks
    (trace (simulateSeasonsStream JSON_parse
              (inr (response_with
                      ["data: " +:+ head; tail +:+ newline +:+ newline]))))
  = []
  /\ forall data,
       JSON_parse (head +:+ tail) = inr data ->
       is_season_record data = true ->
       callbacks
         (trace (simulateSeasonsStream JSON_parse
                   (inr (response_with [sse (head +:+ tail)]))))
       = [OnSeasonUpdate data].
Proof.
  intros Hhead Htail [error Herror] Hnodata.
  assert (H1 : split_lines ("data: " +:+ head) = ["data: " +:+ head])
    by (apply split_lines_no_newline; exact Hhead).
  assert (H2 : split_lines (tail +:+ newline +:+ newline)
               = [tail; ""; ""]%string)
    by (rewrite split_lines_app_newline, split_lines_no_newline
          by exact Htail; reflexivity).
  assert (Hl1 : callbacks (trace (process_line JSON_parse ("data: " +:+ head)))
                = []).
  { apply process_line_malformed. unfold event_of.
    rewrite startsWith_data_prefix, slice_data_prefix, Herror. reflexivity. }
  assert (Hl2 : trace (process_line JSON_parse tail) = [])
    by (rewrite process_line_trace, Hnodata; reflexivity).
  unfold response_with. rewrite !run_of_chunks. split.
  - unfold stream_lines.
    change (flat_map split_lines
              ["data: " +:+ head; tail +:+ newline +:+ newline])
      with (split_lines ("data: " +:+ head)
            ++ split_lines (tail +:+ newline +:+ newline) ++ []).
    rewrite H1, H2, app_nil_r. cbn [trace fst call_of_ending].
    rewrite app_nil_r, calls_of_lines_app.
    unfold callbacks in *. rewrite filter_app.
    change (calls_of_lines JSON_parse ["data: " +:+ head])
      with (trace (process_line JSON_parse ("data: " +:+ head)) ++ []).
    rewrite app_nil_r, Hl1.
    change (calls_of_lines JSON_parse [tail; ""; ""]%string)
      with (trace (process_line JSON_parse tail) ++ []).
    rewrite Hl2. reflexivity.
  - intros data Hdata Hrec. unfold stream_lines.
    change (flat_map split_lines [sse (head +:+ tail)])
      with (split_lines (sse (head +:+ tail)) ++ []).
    rewrite split_lines_sse by (apply no_newline_app; assumption).
    cbn [trace fst call_of_ending]. rewrite !app_nil_r.
    change (calls_of_lines JSON_parse
              ["data: " +:+ head +:+ tail; ""; ""]%string)
      with (trace (process_line JSON_parse ("data: " +:+ head +:+ tail))
            ++ []).
    rewrite app_nil_r.
    rewrite (process_line_season_record JSON_parse _ data);
      [reflexivity| |exact Hrec].
    unfold event_of.
    rewrite startsWith_data_prefix, slice_data_prefix, Hdata. reflexivity.
Qed.

Lemma event_cut_across_reads_is_lost_witness :
  callbacks
    (trace (simulateSeasonsStream example_parse
              (inr (response_with
                      ["data: " +:+ season_text_head;
                       season_text_tail +:+ newline +:+ newline]))))
  = []
  /\ forall data,
       example_parse (season_text_head +:+ season_text_tail) = inr data ->
       is_season_record data = true ->
       callbacks
         (trace (simulateSeasonsStream example_parse
                   (inr (response_with
                           [sse (season_text_head +:+ season_text_tail)]))))
       = [OnSeasonUpdate data].
Proof.
  apply (event_cut_across_reads_is_lost example_parse
           season_text_head season_text_tail).
  - reflexivity.
  - reflexivity.
  - eexists. vm_compute. reflexivity.
  - reflexivity.
Defined.

Example season_text_halves :
  example_parse (season_text_head +:+ season_text_tail)
  = inr (example_season 1).
Proof. vm_compute. reflexivity. Qed.

Lemma read_failure_keeps_partial_output_witness :
  trace (simulateSeasonsStream example_parse (inr dropped_after_two))
  = calls_of_lines example_parse
      (stream_lines [sse (season_text "1"); sse (season_text "2")])
    ++ [OnError (JSError "TypeError" "network error")]
  /\ season_updates
       (trace (simulateSeasonsStream example_parse (inr dropped_after_two)))
     = filter (fun d => is_season_record d)
         (events example_parse
            (stream_lines [sse (season_text "1"); sse (season_text "2")])).
Proof.
  apply (read_failure_keeps_partial_output example_parse dropped_after_two
           {| chunks := [sse (season_text "1"); sse (season_text "2")];
              ending := ReadFailure (JSError "TypeError" "network error") |}
           (JSError "TypeError" "network error"));
    reflexivity.
Defined.

Example dropped_after_two_trace :
  trace (simulateSeasonsStream example_parse (inr dropped_after_two))
  = [ OnSeasonUpdate (example_season 1); OnSeasonUpdate (example_season 2);
      OnError (JSError "TypeError" "network error") ].
Proof. vm_compute. reflexivity. Qed.

Lemma onComplete_once_per_terminal_event_witness :
  length (filter is_OnComplete
            (trace (simulateSeasonsStream example_parse
                      (inr cancelled_then_final))))
  = length (filter (fun d => is_terminal d)
              (events example_parse
                 (stream_lines
                    [ sse (season_text "1"); sse cancelled_text;
                      sse final_statistics_text ]))).
Proof.
  apply (onComplete_once_per_terminal_event example_parse
           cancelled_then_final
           {| chunks := [ sse (season_text "1"); sse cancelled_text;
                          sse final_statistics_text ];
              ending := EndOfStream |});
    reflexivity.
Defined.

Example cancelled_then_final_trace :
  callbacks (trace (simulateSeasonsStream example_parse
                      (inr cancelled_then_final)))
  = [ OnSeasonUpdate (example_season 1); OnComplete;
      OnStatsUpdate (JSObject [("average_expected_wins"%string, JSNumber 41)]);
      OnComplete ].
Proof. vm_compute. reflexivity. Qed.

Lemma other_events_are_ignored_witness :
  callbacks (trace (process_line example_parse "data: null")) = []
  /\ outcome (process_line example_parse "data: null") = inr tt.
Proof.
  apply (other_events_are_ignored example_parse "data: null" JSNull);
    reflexivity.
Defined.

(** ** The adjustment controls, continued *)

Section ControlsExtras.

Import Float64.

Lemma is_finite_cases x :
  is_finite x = true ->
  (exists s, Prim2SF x = S754_zero s)
  \/ (exists s m e, Prim2SF x = S754_finite s m e).
Proof.
  unfold is_finite. rewrite is_nan_spec, is_infinity_spec.
  destruct (Prim2SF x); simpl; try discriminate; eauto.
Qed.

Lemma is_zero_spec x :
  is_zero x = true -> exists s, Prim2SF x = S754_zero s.
Proof.
  unfold is_zero. rewrite FloatAxioms.eqb_spec. unfold SFeqb.
  change (Prim2SF zero) with (S754_zero false).
  destruct (Prim2SF x) as [s|[]| |[] m e]; simpl; try discriminate; eauto.
Qed.

(** The difference of a finite number with itself is +0. *)
Lemma sub_self_zero x :
  is_finite x = true -> Prim2SF (x - x) = S754_zero false.
Proof.
  intros Hx. rewrite FloatAxioms.sub_spec. unfold SF64sub.
  destruct (is_finite_cases x Hx) as [[s ->]|(s & m & e & ->)].
  - destruct s; reflexivity.
  - unfold SFsub. rewrite Z.sub_diag. reflexivity.
Qed.

(** A zero is below the epsilon. *)
Lemma zero_below_EPSILON d s :
  Prim2SF d = S754_zero s -> (Math_abs d <? EPSILON)%float = true.
Proof.
  intros Hd. unfold Math_abs.
  rewrite FloatAxioms.ltb_spec, FloatAxioms.abs_spec, Hd. reflexivity.
Qed.

(** The value a Reset button restores is within the epsilon of the
    baseline, when the baseline is finite. *)
Lemma number_or_zero_unchanged x :
  is_finite x = true ->
  (Math_abs (number_or_zero x - x) <? EPSILON)%float = true.
Proof.
  intros Hx. unfold number_or_zero, truthy_number.
  destruct (is_zero x) eqn:Hz; simpl.
  - destruct (is_zero_spec x Hz) as [s Hs].
    apply (zero_below_EPSILON _ false).
    rewrite FloatAxioms.sub_spec, Hs. destruct s; reflexivity.
  - assert (Hn : is_nan x = false).
    { unfold is_finite in Hx. destruct (is_nan x); [discriminate|reflexivity]. }
    rewrite Hn. simpl. apply (zero_below_EPSILON _ false), sub_self_zero, Hx.
Qed.

(** With every metric at its baseline, as when a team is selected or
    after Reset All, every additional variable is 0, provided the
    baselines are finite numbers. *)
Theorem calculateVariables_at_baseline
    (original : TeamMetrics) :
  (forall m, is_finite (baseline m original) = true) ->
  exists vars,
    calculateVariables (Some original) (resetAllMetrics original) = Some vars
    /\ forall m : Metric, additional m vars = 0%float.
Proof.
  intros Hfinite.
  destruct (calculateVariables_additional original (resetAllMetrics original))
    as (vars & Hvars & Hall).
  exists vars. split; [exact Hvars|]. intros m.
  rewrite Hall, resetAllMetrics_baseline.
  apply getAdditional_unchanged, (zero_below_EPSILON _ false), sub_self_zero,
    Hfinite.
Qed.

Lemma example_team_finite m : is_finite (baseline m example_team) = true.
Proof. destruct m; reflexivity. Qed.

Lemma calculateVariables_at_baseline_witness :
  exists vars,
    calculateVariables (Some example_team) (resetAllMetrics example_team)
    = Some vars
    /\ forall m : Metric, additional m vars = 0%float.
Proof.
  apply (calculateVariables_at_baseline example_team).
  exact example_team_finite.
Defined.

(** Adjusting one metric leaves the additional variables of all the
    other metrics as they were. *)
Theorem adjustMetric_changes_one_variable
    (original : TeamMetrics) (prev : AdjustedMetrics)
    (metric : string) (delta : float) :
  exists before after,
    calculateVariables (Some original) prev = Some before
    /\ calculateVariables (Some original) (adjustMetric metric delta prev)
       = Some after
    /\ forall m : Metric,
         metric_key m <> metric -> additional m after = additional m before.
Proof.
  destruct (calculateVariables_additional original prev)
    as (before & Hbefore & Hb).
  destruct (calculateVariables_additional original
              (adjustMetric metric delta prev)) as (after & Hafter & Ha).
  exists before, after. split; [exact Hbefore|]. split; [exact Hafter|].
  intros m Hne. rewrite Ha, Hb. unfold member.
  rewrite adjustMetric_lookup_ne by congruence. reflexivity.
Qed.

(** The Reset button of a metric, whatever was clicked before: the
    metric's additional variable is 0 again (for a finite baseline), and
    the other metrics keep their adjusted values. *)
Theorem resetMetric_restores_baseline
    (original : TeamMetrics) (prev : AdjustedMetrics) (m : Metric) :
  is_finite (baseline m original) = true ->
  (exists vars,
      calculateVariables (Some original)
        (resetMetric (metric_key m)
           (MetricControl_originalValue m (Some original)) prev)
      = Some vars
      /\ additional m vars = 0%float)
  /\ forall m' : Metric,
       m' <> m ->
       member (resetMetric (metric_key m)
                 (MetricControl_originalValue m (Some original)) prev)
         (metric_key m')
       = member prev (metric_key m').
Proof.
  intros Hfinite. split.
  - destruct (calculateVariables_additional original
                (resetMetric (metric_key m)
                   (MetricControl_originalValue m (Some original)) prev))
      as (vars & Hvars & Hall).
    exists vars. split; [exact Hvars|]. rewrite Hall.
    apply getAdditional_unchanged. unfold member, resetMetric.
    rewrite lookup_insert_eq. simpl.
    apply number_or_zero_unchanged, Hfinite.
  - intros m' Hne. unfold member, resetMetric.
    rewrite lookup_insert_ne; [reflexivity|].
    intros Heq. apply Hne. symmetry. apply metric_key_inj, Heq.
Qed.

Lemma resetMetric_restores_baseline_witness :
  (exists vars,
      calculateVariables (Some example_team)
        (resetMetric (metric_key Ft)
           (MetricControl_originalValue Ft (Some example_team))
           (adjustAll [("ft_pct"%string, 0.01%float);
                       ("ft_pct"%string, 0.01%float)]
              (resetAllMetrics example_team)))
      = Some vars
      /\ additional Ft vars = 0%float)
  /\ forall m' : Metric,
       m' <> Ft ->
       member (resetMetric (metric_key Ft)
                 (MetricControl_originalValue Ft (Some example_team))
                 (adjustAll [("ft_pct"%string, 0.01%float);
                             ("ft_pct"%string, 0.01%float)]
                    (resetAllMetrics example_team)))
         (metric_key m')
       = member (adjustAll [("ft_pct"%string, 0.01%float);
                            ("ft_pct"%string, 0.01%float)]
                   (resetAllMetrics example_team))
           (metric_key m').
Proof.
  apply (resetMetric_restores_baseline example_team
           (adjustAll [("ft_pct"%string, 0.01%float);
                       ("ft_pct"%string, 0.01%float)]
              (resetAllMetrics example_team)) Ft).
  reflexivity.
Defined.

End ControlsExtras.

Section ClampCases.

Import Float64.

(** A number at most 0 is below 1. *)
Lemma leb_zero_below_one s :
  (s <=? 0)%float = true ->
  (1 <? s)%float = false /\ (s <? 1)%float = true.
Proof.
  rewrite FloatAxioms.leb_spec, !FloatAxioms.ltb_spec.
  change (Prim2SF 0) with (S754_zero false).
  change (Prim2SF 1) with (S754_finite false 4503599627370496 (-52)).
  destruct (Prim2SF s) as [sg|[]| |[] m e]; simpl;
    try discriminate; auto.
Qed.

Lemma SFcompare_finite_Eq m0 e0 x :
  SFcompare (S754_finite false m0 e0) x = Some Eq ->
  x = S754_finite false m0 e0.
Proof.
  destruct x as [sg|sg| |sg m e]; cbn [SFcompare]; try discriminate.
  - destruct sg; discriminate.
  - destruct sg; [discriminate|].
    destruct (e0 ?= e)%Z eqn:He; intros [= Hm]; try discriminate.
    apply Z.compare_eq in He. apply Pos.compare_eq in Hm. subst.
    reflexivity.
Qed.

(** A number that is at least 1 and not above 1 is 1. *)
Lemma leb_one_not_ltb_eq s :
  (1 <=? s)%float = true -> (1 <? s)%float = false -> s = 1%float.
Proof.
  rewrite FloatAxioms.leb_spec, FloatAxioms.ltb_spec.
  intros Hle Hlt. apply Prim2SF_inj. revert Hle Hlt.
  change (Prim2SF 1) with (S754_finite false 4503599627370496 (-52)).
  unfold SFleb, SFltb.
  destruct (SFcompare _ (Prim2SF s)) as [[]|] eqn:Hc; try discriminate.
  intros _ _. apply SFcompare_finite_Eq, Hc.
Qed.

Lemma Math_min_1_of_le s : (s <=? 1)%float = true -> Math_min 1 s = s.
Proof.
  intros Hle. unfold Math_min. change (is_nan 1) with false.
  rewrite (leb_not_nan_l _ _ Hle), (leb_not_ltb _ _ Hle). cbn [orb].
  destruct (s <? 1)%float; reflexivity.
Qed.

Lemma Math_min_1_of_ge s : (1 <=? s)%float = true -> Math_min 1 s = 1%float.
Proof.
  intros Hge. unfold Math_min. change (is_nan 1) with false.
  rewrite (leb_not_nan_r _ _ Hge). cbn [orb].
  destruct (1 <? s)%float eqn:Hlt; [reflexivity|].
  rewrite (leb_one_not_ltb_eq s Hge Hlt). reflexivity.
Qed.

Lemma Math_max_0_of_pos m : (0 <? m)%float = true -> Math_max 0 m = m.
Proof.
  intros Hpos. unfold Math_max. change (is_nan 0) with false.
  rewrite (leb_not_nan_r _ _ (ltb_leb _ _ Hpos)), Hpos. reflexivity.
Qed.

Lemma Math_max_0_of_le m : (m <=? 0)%float = true -> Math_max 0 m = 0%float.
Proof.
  intros Hle. unfold Math_max. change (is_nan 0) with false.
  rewrite (leb_not_nan_l _ _ Hle), (leb_not_ltb _ _ Hle). cbn [orb].
  destruct (m <? 0)%float; reflexivity.
Qed.

(** What [adjustMetric] stores for each of the twelve metric keys, by
    where the sum of the previous value (0 if absent) and the delta
    falls: 0 for a sum of at most 0, the sum
    itself when it is above 0 and at most 1, and 1 for a sum of at
    least 1. *)
Theorem adjustMetric_clamps_the_sum
    (prev : AdjustedMetrics) (m : Metric) (delta : float) :
  ((previous_or_zero prev (metric_key m) + delta <=? 0)%float = true ->
   adjustMetric (metric_key m) delta prev !! metric_key m = Some 0%float)
  /\ ((0 <? previous_or_zero prev (metric_key m) + delta)%float = true ->
      (previous_or_zero prev (metric_key m) + delta <=? 1)%float = true ->
      adjustMetric (metric_key m) delta prev !! metric_key m
      = Some (previous_or_zero prev (metric_key m) + delta)%float)
  /\ ((1 <=? previous_or_zero prev (metric_key m) + delta)%float = true ->
      adjustMetric (metric_key m) delta prev !! metric_key m
      = Some 1%float).
Proof.
  rewrite adjustMetric_lookup by apply metric_key_not_inherited.
  generalize (previous_or_zero prev (metric_key m) + delta)%float.
  intros sum.
  split; [|split].
  - intros Hle. f_equal.
    destruct (leb_zero_below_one sum Hle) as [_ Hlt].
    rewrite (Math_min_1_of_le sum (ltb_leb _ _ Hlt)).
    apply Math_max_0_of_le, Hle.
  - intros Hpos Hle. f_equal.
    rewrite (Math_min_1_of_le sum Hle). apply Math_max_0_of_pos, Hpos.
  - intros Hge. f_equal. rewrite (Math_min_1_of_ge sum Hge). reflexivity.
Qed.

(** The Up button on a metric at 1 and the Down button on a metric at 0
    leave it there; on a metric that is absent, Up stores the step and
    Down stores 0. *)
Example adjustMetric_saturates :
  adjustMetric "ft_pct" 0.01 {["ft_pct"%string := 1%float]} !! "ft_pct"
  = Some 1%float
  /\ adjustMetric "ft_pct" (-0.01) {["ft_pct"%string := 0%float]} !! "ft_pct"
     = Some 0%float
  /\ adjustMetric "ft_pct" 0.01 ∅ !! "ft_pct" = Some 0.01%float
  /\ adjustMetric "ft_pct" (-0.01) ∅ !! "ft_pct" = Some 0%float.
Proof. repeat split; vm_compute; reflexivity. Qed.

End ClampCases.

(** ** The chart transform, continued *)

Section ChartExtras.

Variable Number_toString : float -> string.

(** A data point has no member besides [game] and the series keys of the
    seasons given: with no season, every point is its game number
    alone. *)
Theorem chartData_members_are_series_keys
    (seasons : list SeasonData) (point : DataPoint) (key : string) :
  In point (chartData Number_toString seasons) ->
  is_Some (point !! key) ->
  key = "game"%string
  \/ In key (map (seriesKey Number_toString) seasons).
Proof.
  intros Hpoint [v Hv]. unfold chartData in Hpoint.
  apply in_map_iff in Hpoint as (gameNum & <- & _).
  unfold dataPointFor in Hv.
  apply fold_addSeason_origin in Hv as [Hv|(s & g & Hs & Hkey & _)].
  - left. apply lookup_singleton_Some in Hv as [Hk _]. symmetry. exact Hk.
  - right. apply in_map_iff. exists s.
    split; [exact Hkey|apply list_elem_of_In, Hs].
Qed.

(** When several seasons share a series key, the last of them that has
    a record for the game decides the value plotted. *)
Theorem last_season_with_the_key_is_plotted
    (before after : list SeasonData) (s : SeasonData)
    (gameNum : float) (g : GameData) :
  findGame s gameNum = Some g ->
  (forall s', In s' after ->
     seriesKey Number_toString s' = seriesKey Number_toString s ->
     findGame s' gameNum = None) ->
  dataPointFor Number_toString (before ++ s :: after) gameNum
    !! seriesKey Number_toString s
  = Some (expected_wins g).
Proof.
  intros Hfound Hafter. unfold dataPointFor.
  rewrite fold_left_app. simpl. rewrite fold_addSeason_other.
  - unfold addSeason. rewrite Hfound. apply lookup_insert_eq.
  - intros s' Hs' [g' Hg'] Hkey.
    apply list_elem_of_In in Hs'. rewrite (Hafter s' Hs' Hkey) in Hg'.
    discriminate.
Qed.

End ChartExtras.

Lemma chartData_members_are_series_keys_witness :
  "Season 2"%string = "game"%string
  \/ In "Season 2"%string
       (map (seriesKey example_Number_toString) example_seasons).
Proof.
  apply (chartData_members_are_series_keys example_Number_toString
           example_seasons
           (dataPointFor example_Number_toString example_seasons 1%float)
           "Season 2").
  - left. reflexivity.
  - exists 0.75%float. vm_compute. reflexivity.
Defined.

Lemma last_season_with_the_key_is_plotted_witness :
  dataPointFor example_Number_toString example_season_twice 1%float
    !! "Season 1"%string
  = Some 0.75%float.
Proof.
  apply (last_season_with_the_key_is_plotted example_Number_toString
           [ {| season := 1;
                games := [example_game 1 0.5];
                final_expected_wins := 0.5; total_wins := 1;
                win_percentage := 1 |} ]
           []
           {| season := 1;
              games := [example_game 1 0.75];
              final_expected_wins := 0.75; total_wins := 1;
              win_percentage := 1 |}
           1%float (example_game 1 0.75)).
  - reflexivity.
  - intros s' [].
Defined.

(** ** The callbacks of the application *)

Lemma statisticsOf_object props :
  exists statistics, statisticsOf (JSObject props) = inr statistics.
Proof. unfold statisticsOf. simpl. eauto. Qed.

Lemma is_season_record_object data :
  is_season_record data = true -> exists props, data = JSObject props.
Proof. destruct data; try discriminate. eauto. Qed.

Lemma onSeasonUpdate_season_record data s :
  is_season_record data = true ->
  exists statistics,
    onSeasonUpdate data s
    = ({| seasons_array := seasons_array s ++ [data];
          simulationResult := Some (seasons_array s ++ [data], statistics);
          seasonsCompleted := length (seasons_array s ++ [data]);
          isSimulating := isSimulating s;
          error := error s |}, None).
Proof.
  intros Hrec. destruct (is_season_record_object data Hrec) as [props ->].
  destruct (statisticsOf_object props) as [statistics Hst].
  exists statistics. unfold onSeasonUpdate. rewrite Hst. reflexivity.
Qed.

Section ProcessedLines.

Variable JSON_parse : string -> Thrown + JSValue.

Lemma dispatch_line_calls data : Forall line_call (trace (dispatch data)).
Proof.
  destruct data; try constructor.
  rewrite dispatch_object.
  destruct (strict_eq_string _ "final_statistics") eqn:Hfinal;
    [repeat constructor|].
  destruct (strict_eq_string _ "cancelled") eqn:Hcancelled;
    [repeat constructor|].
  destruct (truthy (lookup_prop "season" props)) eqn:Hseason;
    [|constructor].
  destruct (truthy (lookup_prop "games" props)) eqn:Hgames;
    [|constructor].
  repeat constructor. simpl. rewrite Hfinal, Hcancelled, Hseason, Hgames.
  reflexivity.
Qed.

Lemma process_line_line_calls line :
  Forall line_call (trace (process_line JSON_parse line)).
Proof.
  rewrite process_line_trace.
  destruct (startsWith line "data: "); [|constructor].
  destruct (JSON_parse (slice line 6)) as [e|data]; [repeat constructor|].
  destruct (outcome (dispatch data)); [|apply dispatch_line_calls].
  apply Forall_app. split; [apply dispatch_line_calls|repeat constructor].
Qed.

Lemma calls_of_lines_line_calls lines :
  Forall line_call (calls_of_lines JSON_parse lines).
Proof.
  induction lines as [|line lines IH]; [constructor|].
  change (calls_of_lines JSON_parse (line :: lines))
    with (trace (process_line JSON_parse line)
          ++ calls_of_lines JSON_parse lines).
  apply Forall_app. split; [apply process_line_line_calls|exact IH].
Qed.

(** The trace of a run: the calls of some lines, then at most one
    [onError]. *)
Lemma simulateSeasonsStream_trace_shape (fetched : Thrown + Response) :
  exists lines last,
    trace (simulateSeasonsStream JSON_parse fetched)
    = calls_of_lines JSON_parse lines ++ call_of_ending last.
Proof.
  destruct fetched as [reason|response].
  - exists [], (ReadFailure reason). reflexivity.
  - destruct (ok response) eqn:Hok.
    + destruct (body response) as [reader|] eqn:Hbody.
      * exists (stream_lines (chunks reader)), (ending reader).
        rewrite (simulateSeasonsStream_run JSON_parse response reader Hok Hbody).
        reflexivity.
      * rewrite (no_body_response_run JSON_parse response Hok Hbody).
        exists [], (ReadFailure (JSError "Error" "No response body")).
        reflexivity.
    + rewrite (not_ok_response_run JSON_parse response Hok).
      eexists [], (ReadFailure _). reflexivity.
Qed.

End ProcessedLines.

Section AppFacts.

Variable JSON_stringify : JSValue -> string.

Local Abbreviation run_calls := (apply_calls JSON_stringify).

(** What the calls of processed lines do to the state. *)
Lemma apply_line_calls t : forall s,
  Forall line_call t ->
  consistent s ->
  exists s',
    run_calls t s = (s', None)
    /\ consistent s'
    /\ seasons_array s' = seasons_array s ++ season_updates t
    /\ error s' = error s
    /\ isSimulating s'
       = match filter is_OnComplete t with
         | [] => isSimulating s
         | _ => false
         end.
Proof.
  induction t as [|c t IH]; intros s Hall Hs.
  - exists s. rewrite app_nil_r. auto.
  - apply Forall_cons in Hall as [Hc Hall].
    destruct c as [data|stats| |err|label arg|label arg]; simpl in Hc.
    + destruct (onSeasonUpdate_season_record data s Hc) as [st Hup].
      simpl. rewrite Hup. simpl.
      match goal with
      | |- context [apply_calls _ t ?s0] =>
          destruct (IH s0 Hall) as (s' & Hrun & Hs' & Harr & Herr & Hsim)
      end.
      { destruct Hs as [Hcount _]. split; [reflexivity|]. simpl.
        split; [reflexivity|]. destruct (seasons_array s); discriminate. }
      exists s'. rewrite Hrun. simpl in *.
      rewrite Harr, <- app_assoc. auto.
    + simpl.
      destruct (IH (onStatsUpdate stats s) Hall)
        as (s' & Hrun & Hs' & Harr & Herr & Hsim).
      { destruct Hs as [Hcount Hres]. split; [exact Hcount|]. simpl.
        destruct (simulationResult s) as [[seasons st]|]; exact Hres. }
      exists s'. rewrite Hrun. auto.
    + simpl.
      destruct (IH (onComplete s) Hall)
        as (s' & Hrun & Hs' & Harr & Herr & Hsim).
      { exact Hs. }
      exists s'. rewrite Hrun. simpl in *.
      split; [reflexivity|]. split; [exact Hs'|].
      split; [exact Harr|]. split; [exact Herr|].
      rewrite Hsim. destruct (filter is_OnComplete t); reflexivity.
    + contradiction.
    + simpl. apply IH; assumption.
    + simpl. apply IH; assumption.
Qed.

Lemma run_calls_app t1 t2 s s1 :
  run_calls t1 s = (s1, None) ->
  run_calls (t1 ++ t2) s = run_calls t2 s1.
Proof.
  revert s. induction t1 as [|c t1 IH]; intros s Hrun.
  - injection Hrun as ->. reflexivity.
  - destruct c; simpl in *; try (apply IH; exact Hrun).
    destruct (onError JSON_stringify error0 s) as [s' [e|]];
      [discriminate|apply IH; exact Hrun].
Qed.

Lemma consistent_started : consistent started.
Proof. split; reflexivity. Qed.

End AppFacts.

Section AppClaims.

Variable JSON_stringify : JSValue -> string.
Variable JSON_parse : string -> Thrown + JSValue.

Local Abbreviation run_calls := (apply_calls JSON_stringify).

(** [onError] keeps the array, the counter and the result. *)
Lemma onError_consistent err s :
  consistent s ->
  consistent (fst (onError JSON_stringify err s))
  /\ seasons_array (fst (onError JSON_stringify err s)) = seasons_array s.
Proof.
  intros Hs. unfold onError.
  destruct (errorMessage JSON_stringify err); simpl; auto.
Qed.

(** Whatever the consumer passes to [onSeasonUpdate] is a season record,
    hence an object, and the callback of the application does not throw
    on it: reading [running_statistics] is safe. *)
Theorem onSeasonUpdate_never_throws
    (fetched : Thrown + Response) (data : JSValue) (s : AppState) :
  In (OnSeasonUpdate data) (trace (simulateSeasonsStream JSON_parse fetched)) ->
  is_season_record data = true
  /\ (exists props, data = JSObject props)
  /\ snd (onSeasonUpdate data s) = None.
Proof.
  intros Hin.
  destruct (simulateSeasonsStream_trace_shape JSON_parse fetched)
    as (lines & last & Htrace).
  rewrite Htrace in Hin. apply in_app_iff in Hin as [Hin|Hin].
  - pose proof (calls_of_lines_line_calls JSON_parse lines) as Hall.
    rewrite Forall_forall in Hall.
    pose proof (Hall _ (proj2 (list_elem_of_In _ _) Hin)) as Hrec.
    simpl in Hrec. split; [exact Hrec|].
    split; [apply is_season_record_object, Hrec|].
    destruct (onSeasonUpdate_season_record data s Hrec) as [st ->].
    reflexivity.
  - destruct last; simpl in Hin; [contradiction|].
    destruct Hin as [Hin|[]]. discriminate.
Qed.

(** The state a run leaves, whatever the request and the stream do: the
    counter equals the number of seasons kept, which are the season
    records received, in order; a result is published exactly when at
    least one season was received, and it holds all of them. *)
Theorem handleSimulate_keeps_count_and_result_in_step
    (selectedTeam : string) (fetched : Thrown + Response)
    (prior : AppState) :
  selectedTeam <> ""%string ->
  consistent
    (handleSimulate JSON_stringify JSON_parse selectedTeam fetched prior)
  /\ seasons_array
       (handleSimulate JSON_stringify JSON_parse selectedTeam fetched prior)
     = season_updates (trace (simulateSeasonsStream JSON_parse fetched)).
Proof.
  intros Hteam. unfold handleSimulate.
  destruct (String.eqb selectedTeam "") eqn:Heq;
    [apply String.eqb_eq in Heq; contradiction|].
  destruct (simulateSeasonsStream_trace_shape JSON_parse fetched)
    as (lines & last & ->).
  destruct (apply_line_calls JSON_stringify _ started
              (calls_of_lines_line_calls JSON_parse lines) consistent_started)
    as (s1 & Hrun & Hs1 & Harr & _).
  rewrite (run_calls_app JSON_stringify _ _ _ _ Hrun), season_updates_app.
  simpl in Harr. destruct last as [|reason]; simpl.
  - rewrite app_nil_r. auto.
  - rewrite app_nil_r.
    destruct (onError_consistent reason s1 Hs1) as [Hc Ha].
    destruct (onError JSON_stringify reason s1) as [s2 [e|]]; simpl in *.
    + split; [exact Hc|]. simpl. congruence.
    + split; [exact Hc|]. congruence.
Qed.

(** A request that fails with a non-ok status leaves the application idle
    with the HTTP error as its message and nothing to show. *)
Theorem failed_request_shows_the_http_error
    (selectedTeam : string) (response : Response) (prior : AppState) :
  selectedTeam <> ""%string ->
  ok response = false ->
  handleSimulate JSON_stringify JSON_parse selectedTeam (inr response) prior
  = {| seasons_array := [];
       simulationResult := None;
       seasonsCompleted := 0;
       isSimulating := false;
       error := JSString ("HTTP error! status: "
                          +:+ pretty (status response)) |}.
Proof.
  intros Hteam Hok. unfold handleSimulate.
  destruct (String.eqb selectedTeam "") eqn:Heq;
    [apply String.eqb_eq in Heq; contradiction|].
  rewrite (not_ok_response_run JSON_parse response Hok). reflexivity.
Qed.

(** A stream that closes without a terminal event, neither final
    statistics nor a cancellation notice, leaves the application in the
    simulating state, with no error to show. *)
Theorem stream_without_terminal_event_keeps_simulating
    (selectedTeam : string) (response : Response) (reader : Reader)
    (prior : AppState) :
  selectedTeam <> ""%string ->
  ok response = true ->
  body response = Some reader ->
  ending reader = EndOfStream ->
  filter (fun d => is_terminal d)
    (events JSON_parse (stream_lines (chunks reader))) = [] ->
  isSimulating
    (handleSimulate JSON_stringify JSON_parse selectedTeam (inr response)
       prior) = true
  /\ error
       (handleSimulate JSON_stringify JSON_parse selectedTeam (inr response)
          prior) = JSString "".
Proof.
  intros Hteam Hok Hbody Hend Hnone. unfold handleSimulate.
  destruct (String.eqb selectedTeam "") eqn:Heq;
    [apply String.eqb_eq in Heq; contradiction|].
  rewrite (simulateSeasonsStream_run JSON_parse response reader Hok Hbody).
  simpl. rewrite Hend. simpl. rewrite app_nil_r.
  destruct (apply_line_calls JSON_stringify _ started
              (calls_of_lines_line_calls JSON_parse
                 (stream_lines (chunks reader))) consistent_started)
    as (s1 & Hrun & _ & _ & Herr & Hsim).
  rewrite Hrun. rewrite calls_of_lines_OnComplete, Hnone in Hsim.
  simpl in Hsim. auto.
Qed.

End AppClaims.

(** ** The statistics record *)

Section StatisticsRecord.

Variable JSON_stringify : JSValue -> string.
Variable JSON_parse : string -> Thrown + JSValue.

(** The statistics of the published result were there before the calls,
    or are the argument of an [onStatsUpdate] call, or what an
    [onSeasonUpdate] call took from its season record. *)
Lemma apply_calls_statistics t : forall s s' e seasons statistics,
  apply_calls JSON_stringify t s = (s', e) ->
  simulationResult s' = Some (seasons, statistics) ->
  (exists seasons0, simulationResult s = Some (seasons0, statistics))
  \/ In (OnStatsUpdate statistics) t
  \/ exists data,
       In (OnSeasonUpdate data) t /\ statisticsOf data = inr statistics.
Proof.
  induction t as [|c t IH]; intros s s' e seasons statistics Hrun Hres.
  - injection Hrun as <- _. left. eauto.
  - destruct c as [data|stats| |err|label arg|label arg]; simpl in Hrun.
    + destruct (IH _ _ _ _ _ Hrun Hres) as [[seasons0 H0]|[Hin|(d & Hin & Hd)]].
      * unfold onSeasonUpdate in H0.
        destruct (statisticsOf data) as [thrown|st] eqn:Hst; simpl in H0.
        -- left. eauto.
        -- injection H0 as _ <-. right. right. exists data.
           split; [left; reflexivity|exact Hst].
      * right. left. right. exact Hin.
      * right. right. exists d. split; [right; exact Hin|exact Hd].
    + destruct (IH _ _ _ _ _ Hrun Hres) as [[seasons0 H0]|[Hin|(d & Hin & Hd)]].
      * simpl in H0.
        destruct (simulationResult s) as [[seasons1 st]|]; [|discriminate].
        injection H0 as _ <-. right. left. left. reflexivity.
      * right. left. right. exact Hin.
      * right. right. exists d. split; [right; exact Hin|exact Hd].
    + destruct (IH _ _ _ _ _ Hrun Hres) as [[seasons0 H0]|[Hin|(d & Hin & Hd)]].
      * left. eauto.
      * right. left. right. exact Hin.
      * right. right. exists d. split; [right; exact Hin|exact Hd].
    + unfold onError in Hrun.
      destruct (errorMessage JSON_stringify err) as [thrown|message].
      * injection Hrun as <- _. left. eauto.
      * destruct (IH _ _ _ _ _ Hrun Hres)
          as [[seasons0 H0]|[Hin|(d & Hin & Hd)]].
        -- left. eauto.
        -- right. left. right. exact Hin.
        -- right. right. exists d. split; [right; exact Hin|exact Hd].
    + destruct (IH _ _ _ _ _ Hrun Hres) as [[seasons0 H0]|[Hin|(d & Hin & Hd)]].
      * left. eauto.
      * right. left. right. exact Hin.
      * right. right. exists d. split; [right; exact Hin|exact Hd].
    + destruct (IH _ _ _ _ _ Hrun Hres) as [[seasons0 H0]|[Hin|(d & Hin & Hd)]].
      * left. eauto.
      * right. left. right. exact Hin.
      * right. right. exists d. split; [right; exact Hin|exact Hd].
Qed.

(** The state a run leaves is consistent. *)
Lemma handleSimulate_consistent
    (selectedTeam : string) (fetched : Thrown + Response)
    (prior : AppState) :
  selectedTeam <> ""%string ->
  consistent
    (handleSimulate JSON_stringify JSON_parse selectedTeam fetched prior).
Proof.
  intros Hteam. unfold handleSimulate.
  destruct (String.eqb selectedTeam "") eqn:Heq;
    [apply String.eqb_eq in Heq; contradiction|].
  destruct (simulateSeasonsStream_trace_shape JSON_parse fetched)
    as (lines & last & ->).
  destruct (apply_line_calls JSON_stringify _ started
              (calls_of_lines_line_calls JSON_parse lines) consistent_started)
    as (s1 & Hrun & Hs1 & _).
  rewrite (run_calls_app JSON_stringify _ _ _ _ Hrun).
  destruct last as [|reason]; simpl; [exact Hs1|].
  destruct (onError_consistent JSON_stringify reason s1 Hs1) as [Hc _].
  destruct (onError JSON_stringify reason s1) as [s2 [e|]]; exact Hc.
Qed.

Lemma SimulationStatistics_declares (field : string) :
  declares SimulationStatistics field = true
  <-> In field [ "average_expected_wins"; "standard_deviation";
                 "confidence_interval_95"; "min_wins"; "max_wins" ]%string.
Proof.
  unfold declares, SimulationStatistics. cbn [existsb fst In].
  rewrite !orb_true_iff, !String.eqb_eq. intuition discriminate.
Qed.

(** C6, as the code has it. The statistics record the application shows
    is the one it received, unchanged: the statistics payload of a
    [final_statistics] event or what [onSeasonUpdate] took from a season
    record (its [running_statistics], or the fallback object of the
    application). The count of seasons completed is kept beside it, as
    the number of seasons of the result. The interface
    [SimulationStatistics] declares the five members average expected
    wins, standard deviation, confidence interval, min wins and max wins,
    and none for that count; the fallback object has the five and
    [seasons_completed]. *)
Theorem statistics_record_is_passed_through
    (selectedTeam : string) (fetched : Thrown + Response) (prior : AppState)
    (seasons : list JSValue) (statistics : JSValue) :
  selectedTeam <> ""%string ->
  simulationResult
    (handleSimulate JSON_stringify JSON_parse selectedTeam fetched prior)
  = Some (seasons, statistics) ->
  (In (OnStatsUpdate statistics)
      (trace (simulateSeasonsStream JSON_parse fetched))
   \/ exists data,
        In (OnSeasonUpdate data)
           (trace (simulateSeasonsStream JSON_parse fetched))
        /\ statisticsOf data = inr statistics)
  /\ seasonsCompleted
       (handleSimulate JSON_stringify JSON_parse selectedTeam fetched prior)
     = length seasons
  /\ (forall field,
        declares SimulationStatistics field = true
        <-> In field [ "average_expected_wins"; "standard_deviation";
                       "confidence_interval_95"; "min_wins";
                       "max_wins" ]%string)
  /\ declares SimulationStatistics "seasons_completed" = false
  /\ map fst fallbackStatistics
     = map fst SimulationStatistics ++ ["seasons_completed"%string].
Proof.
  intros Hteam Hres.
  split; [|split; [|split; [exact SimulationStatistics_declares|
                            split; reflexivity]]].
  - unfold handleSimulate in Hres.
    destruct (String.eqb selectedTeam "") eqn:Heq;
      [apply String.eqb_eq in Heq; contradiction|].
    destruct (apply_calls JSON_stringify
                (trace (simulateSeasonsStream JSON_parse fetched)) started)
      as [s [e|]] eqn:Hrun;
      simpl in Hres;
      destruct (apply_calls_statistics _ _ _ _ _ _ Hrun Hres)
        as [[seasons0 H0]|Hfrom];
      solve [discriminate H0 | exact Hfrom].
  - destruct (handleSimulate_consistent selectedTeam fetched prior Hteam)
      as [Hcount Hshape].
    rewrite Hres in Hshape. destruct Hshape as [-> _]. exact Hcount.
Qed.

End StatisticsRecord.

Lemma statistics_record_is_passed_through_witness :
  (In (OnStatsUpdate
         (JSObject [("average_expected_wins"%string, JSNumber 41)]))
      (trace (simulateSeasonsStream example_parse (inr two_seasons)))
   \/ exists data,
        In (OnSeasonUpdate data)
           (trace (simulateSeasonsStream example_parse (inr two_seasons)))
        /\ statisticsOf data
           = inr (JSObject [("average_expected_wins"%string, JSNumber 41)]))
  /\ seasonsCompleted
       (handleSimulate example_JSON_stringify example_parse "BOS"
          (inr two_seasons) started)
     = length [example_season 1; example_season 2]
  /\ (forall field,
        declares SimulationStatistics field = true
        <-> In field [ "average_expected_wins"; "standard_deviation";
                       "confidence_interval_95"; "min_wins";
                       "max_wins" ]%string)
  /\ declares SimulationStatistics "seasons_completed" = false
  /\ map fst fallbackStatistics
     = map fst SimulationStatistics ++ ["seasons_completed"%string].
Proof.
  apply (statistics_record_is_passed_through example_JSON_stringify
           example_parse "BOS" (inr two_seasons) started
           [example_season 1; example_season 2]
           (JSObject [("average_expected_wins"%string, JSNumber 41)])).
  - discriminate.
  - vm_compute. reflexivity.
Defined.

(** A season record without [running_statistics] makes the application
    show its fallback object. *)
Example fallback_statistics_shown :
  simulationResult
    (handleSimulate example_JSON_stringify example_parse "BOS"
       (inr closed_early) started)
  = Some ([example_season 1; example_season 2], JSObject fallbackStatistics).
Proof. vm_compute. reflexivity. Qed.

(** The claim as stated fails on the declaration: the interface
    [SimulationStatistics] has five members, and none for the count of
    seasons completed. *)
Lemma SimulationStatistics_counterexample :
  map fst SimulationStatistics
  = [ "average_expected_wins"; "standard_deviation";
      "confidence_interval_95"; "min_wins"; "max_wins" ]%string
  /\ length SimulationStatistics = 5
  /\ declares SimulationStatistics "seasons_completed" = false
  /\ In ("statistics"%string, TsRef "SimulationStatistics") SimulationResult.
Proof. repeat split; try reflexivity. simpl. auto. Qed.

Lemma season_record_not_terminal data :
  is_season_record data = true -> is_terminal data = false.
Proof.
  destruct data; try reflexivity. simpl.
  destruct (strict_eq_string _ "final_statistics"); [discriminate|].
  destruct (strict_eq_string _ "cancelled"); [discriminate|reflexivity].
Qed.

Lemma filter_season_records (records : list JSValue) :
  Forall (fun d => is_season_record d = true) records ->
  filter (fun d => is_season_record d) records = records
  /\ filter (fun d => is_terminal d) records = [].
Proof.
  induction 1 as [|d records Hd _ [IH1 IH2]]; [split; reflexivity|].
  rewrite !filter_cons, IH1, IH2, Hd, (season_record_not_terminal d Hd).
  split; reflexivity.
Qed.

Section CompletedRun.

Variable JSON_stringify : JSValue -> string.
Variable JSON_parse : string -> Thrown + JSValue.

Lemma apply_calls_no_callbacks t s :
  callbacks t = [] -> apply_calls JSON_stringify t s = (s, None).
Proof.
  unfold callbacks. induction t as [|c t IH]; [reflexivity|].
  rewrite filter_cons.
  destruct c; simpl; try discriminate; exact IH.
Qed.

(** A run that completes normally, with the season records first and the
    final statistics last, leaves the application idle, without error,
    with every season kept and counted; the statistics shown are the
    final ones. When no season record came before them, the final
    statistics are dropped: no result is published. *)
Theorem completed_run_final_state
    (selectedTeam : string) (prior : AppState)
    (response : Response) (reader : Reader)
    (before after : list string) (line : string) (data : JSValue) :
  selectedTeam <> ""%string ->
  ok response = true ->
  body response = Some reader ->
  ending reader = EndOfStream ->
  stream_lines (chunks reader) = before ++ line :: after ->
  event_of JSON_parse line = Some data ->
  has_type data "final_statistics" ->
  Forall (fun d => is_season_record d = true) (events JSON_parse before) ->
  events JSON_parse after = [] ->
  exists statistics,
    get_prop data "statistics" = inr statistics
    /\ handleSimulate JSON_stringify JSON_parse selectedTeam (inr response)
         prior
       = {| seasons_array := events JSON_parse before;
            simulationResult :=
              match events JSON_parse before with
              | [] => None
              | _ => Some (events JSON_parse before, statistics)
              end;
            seasonsCompleted := length (events JSON_parse before);
            isSimulating := false;
            error := JSString "" |}.
Proof.
  intros Hteam Hok Hbody Hend Hlines Hev Htype Hbefore Hafter.
  destruct (process_line_final_statistics JSON_parse line data Hev Htype)
    as (statistics & Hstats & Hline).
  exists statistics. split; [exact Hstats|].
  unfold handleSimulate.
  destruct (String.eqb selectedTeam "") eqn:Heq;
    [apply String.eqb_eq in Heq; contradiction|].
  rewrite (simulateSeasonsStream_run JSON_parse response reader Hok Hbody).
  simpl. rewrite Hend, Hlines, calls_of_lines_app. simpl.
  change (calls_of_lines JSON_parse (line :: after))
    with (trace (process_line JSON_parse line)
          ++ calls_of_lines JSON_parse after).
  rewrite Hline, app_nil_r.
  destruct (apply_line_calls JSON_stringify _ started
              (calls_of_lines_line_calls JSON_parse before)
              consistent_started)
    as (s1 & Hrun & [Hcount Hres] & Harr & Herr & Hsim).
  rewrite (run_calls_app JSON_stringify _ _ _ _ Hrun).
  destruct (filter_season_records _ Hbefore) as [Hrecords Hterminal].
  rewrite calls_of_lines_season_updates, Hrecords in Harr.
  simpl in Harr, Herr. simpl.
  rewrite apply_calls_no_callbacks
    by (rewrite (callbacks_of_season_records JSON_parse after), Hafter;
        [reflexivity|rewrite Hafter; constructor]).
  destruct s1 as [array result count simulating message].
  simpl in *. subst array message. rewrite Hcount. unfold onComplete,
    onStatsUpdate. simpl. f_equal.
  destruct result as [[seasons st]|].
  - destruct Hres as [-> Hne].
    destruct (events JSON_parse before); [contradiction|reflexivity].
  - rewrite Hres. reflexivity.
Qed.

End CompletedRun.

Lemma completed_run_final_state_witness :
  exists statistics,
    get_prop example_final_statistics "statistics" = inr statistics
    /\ handleSimulate example_JSON_stringify example_parse "BOS"
         (inr two_seasons) started
       = {| seasons_array := events example_parse lines_before_final;
            simulationResult :=
              match events example_parse lines_before_final with
              | [] => None
              | _ => Some (events example_parse lines_before_final,
                           statistics)
              end;
            seasonsCompleted :=
              length (events example_parse lines_before_final);
            isSimulating := false;
            error := JSString "" |}.
Proof.
  apply (completed_run_final_state example_JSON_stringify example_parse
           "BOS" started two_seasons
           {| chunks := [ sse (season_text "1") +:+ sse (season_text "2");
                          sse final_statistics_text ];
              ending := EndOfStream |}
           lines_before_final [""; ""]%string
           ("data: " +:+ final_statistics_text) example_final_statistics).
  - discriminate.
  - reflexivity.
  - reflexivity.
  - reflexivity.
  - vm_compute. reflexivity.
  - vm_compute. reflexivity.
  - eexists. split; reflexivity.
  - vm_compute. repeat constructor.
  - vm_compute. reflexivity.
Defined.

Example statistics_only_are_dropped :
  handleSimulate example_JSON_stringify example_parse "BOS"
    (inr statistics_only) started
  = {| seasons_array := []; simulationResult := None; seasonsCompleted := 0;
       isSimulating := false; error := JSString "" |}.
Proof. vm_compute. reflexivity. Qed.

Lemma onSeasonUpdate_never_throws_witness :
  is_season_record (example_season 2) = true
  /\ (exists props, example_season 2 = JSObject props)
  /\ snd (onSeasonUpdate (example_season 2) started) = None.
Proof.
  apply (onSeasonUpdate_never_throws example_parse (inr two_seasons)
           (example_season 2) started).
  vm_compute. right. left. reflexivity.
Defined.

Lemma handleSimulate_keeps_count_and_result_in_step_witness :
  consistent
    (handleSimulate example_JSON_stringify example_parse "BOS"
       (inr dropped_after_two) started)
  /\ seasons_array
       (handleSimulate example_JSON_stringify example_parse "BOS"
          (inr dropped_after_two) started)
     = season_updates
         (trace (simulateSeasonsStream example_parse
                   (inr dropped_after_two))).
Proof.
  apply (handleSimulate_keeps_count_and_result_in_step
           example_JSON_stringify example_parse "BOS"
           (inr dropped_after_two) started).
  discriminate.
Defined.

Lemma failed_request_shows_the_http_error_witness :
  handleSimulate example_JSON_stringify example_parse "BOS"
    (inr not_found) started
  = {| seasons_array := [];
       simulationResult := None;
       seasonsCompleted := 0;
       isSimulating := false;
       error := JSString ("HTTP error! status: " +:+ pretty 404) |}.
Proof.
  apply (failed_request_shows_the_http_error example_JSON_stringify
           example_parse "BOS" not_found started).
  - discriminate.
  - reflexivity.
Defined.

Lemma stream_without_terminal_event_keeps_simulating_witness :
  isSimulating
    (handleSimulate example_JSON_stringify example_parse "BOS"
       (inr closed_early) started) = true
  /\ error
       (handleSimulate example_JSON_stringify example_parse "BOS"
          (inr closed_early) started) = JSString "".
Proof.
  apply (stream_without_terminal_event_keeps_simulating
           example_JSON_stringify example_parse "BOS" closed_early
           {| chunks := [sse (season_text "1"); sse (season_text "2")];
              ending := EndOfStream |}
           started).
  - discriminate.
  - reflexivity.
  - reflexivity.
  - reflexivity.
  - vm_compute. reflexivity.
Defined.

(** Clicks on two different metrics commute: the order in which the
    buttons of different metrics are pressed does not matter. *)
Theorem adjustMetric_commutes
    (prev : AdjustedMetrics) (metric1 metric2 : string)
    (delta1 delta2 : float) :
  metric1 <> metric2 ->
  adjustMetric metric1 delta1 (adjustMetric metric2 delta2 prev)
  = adjustMetric metric2 delta2 (adjustMetric metric1 delta1 prev).
Proof.
  intros Hne. unfold adjustMetric, find_member.
  rewrite !lookup_insert_ne by congruence.
  apply insert_insert_ne. congruence.
Qed.

Lemma adjustMetric_commutes_witness :
  adjustMetric "fg2_pct" 0.01
    (adjustMetric "tov_pct" (-0.01) (resetAllMetrics example_team))
  = adjustMetric "tov_pct" (-0.01)
      (adjustMetric "fg2_pct" 0.01 (resetAllMetrics example_team)).
Proof.
  apply (adjustMetric_commutes (resetAllMetrics example_team)
           "fg2_pct" "tov_pct" 0.01 (-0.01)).
  discriminate.
Defined.
